(** * Soroban RPC: the [simulateTransaction] handler

    Shallow embedding of
    [cmd/soroban-rpc/internal/methods/simulate_transaction.go]:
    the JSON-RPC handler built by [NewSimulateTransactionHandler] and its
    helper [getBucketListSize].

    Go values are modelled as follows.
    - fixed-width integers are [Z]; the two conversions of the source
      ([int64(..)] and [uint64(..)]) are written out with their wrap-around;
    - a Go [error] is [option string]: [None] is [nil], [Some m] is an error
      whose [Error()] is [m];
    - a call returning [(value, error)] returns a pair, as in Go;
    - a pointer field of an XDR union is an [option]; reading through a nil
      pointer panics;
    - the calls made on the collaborators (ledger entry reader, ledger
      reader, preflight getter) are recorded, with their results, in a
      trace of [Effect]s. *)

From Stdlib Require Import ZArith List String Bool Lia DecimalString.
Import ListNotations.

Local Open Scope string_scope.
Local Open Scope Z_scope.

(** ** Go basics *)

Definition error := option string.

(** [err.Error()] of a non-nil error. *)
Definition Error_ (e : string) : string := e.

(** [int64(x)]: two's complement wrap-around to 64 bits. *)
Definition int64 (x : Z) : Z := (x + 2 ^ 63) mod 2 ^ 64 - 2 ^ 63.

(** [uint64(x)]. *)
Definition uint64 (x : Z) : Z := x mod 2 ^ 64.

(** The verb [%d] of [fmt]: signed decimal. *)
Definition fmt_d (x : Z) : string := NilZero.string_of_int (Z.to_int x).

(** ** Package [xdr] (github.com/stellar/go/xdr)

    Only the types and fields the handler reads.  The unions are the Go
    structs the XDR generator emits: a discriminant and one pointer per
    arm. *)
Module xdr.

Definition EnvelopeType := Z.
Definition EnvelopeTypeEnvelopeTypeTxV0 : EnvelopeType := 0.
Definition EnvelopeTypeEnvelopeTypeTx : EnvelopeType := 2.
Definition EnvelopeTypeEnvelopeTypeTxFeeBump : EnvelopeType := 5.

Definition OperationType := Z.
Definition OperationTypePayment : OperationType := 1.
Definition OperationTypeInvokeHostFunction : OperationType := 24.
Definition OperationTypeBumpFootprintExpiration : OperationType := 25.
Definition OperationTypeRestoreFootprint : OperationType := 26.

(** Keys, accounts and union arms are carried as their XDR text. *)
Definition LedgerKey := string.
Definition Uint256 := string.
Definition AccountId := string.

Inductive MuxedAccount :=
| KeyTypeEd25519 (ed25519 : Uint256)
| KeyTypeMuxedEd25519 (id : Z) (ed25519 : Uint256).

Definition ToAccountId (m : MuxedAccount) : AccountId :=
  match m with
  | KeyTypeEd25519 k => k
  | KeyTypeMuxedEd25519 _ k => k
  end.

Record LedgerFootprint := {
  ReadOnly : list LedgerKey;
  ReadWrite : list LedgerKey
}.

(** [xdr.LedgerFootprint{}] *)
Definition LedgerFootprint_zero : LedgerFootprint :=
  {| ReadOnly := []; ReadWrite := [] |}.

Record SorobanResources := {
  Footprint : LedgerFootprint;
  Instructions : Z;
  ReadBytes : Z;
  WriteBytes : Z
}.

Record SorobanTransactionData := {
  Resources : SorobanResources;
  RefundableFee : Z
}.

Record TransactionExt := {
  ext_V : Z;
  ext_SorobanData : option SorobanTransactionData
}.

Record OperationBody := {
  body_Type : OperationType;
  body_arm : string
}.

Record Operation := {
  op_SourceAccount : option MuxedAccount;
  op_Body : OperationBody
}.

Record Transaction := {
  tx_SourceAccount : MuxedAccount;
  tx_Operations : list Operation;
  tx_Ext : TransactionExt
}.

Record TransactionV1Envelope := { v1_Tx : Transaction }.

Record TransactionV0 := {
  v0_SourceAccountEd25519 : Uint256;
  v0_Operations : list Operation
}.

Record TransactionV0Envelope := { v0_Tx : TransactionV0 }.

Record FeeBumpTransactionInnerTx := {
  inner_Type : EnvelopeType;
  inner_V1 : option TransactionV1Envelope
}.

Record FeeBumpTransaction := {
  fb_FeeSource : MuxedAccount;
  fb_InnerTx : FeeBumpTransactionInnerTx
}.

Record FeeBumpTransactionEnvelope := { fb_Tx : FeeBumpTransaction }.

Record TransactionEnvelope := {
  env_Type : EnvelopeType;
  env_V0 : option TransactionV0Envelope;
  env_V1 : option TransactionV1Envelope;
  env_FeeBump : option FeeBumpTransactionEnvelope
}.

(** [func (e TransactionEnvelope) Operations() []Operation]; [None] is a
    panic (unsupported type, or a nil arm). *)
Definition Operations (e : TransactionEnvelope) : option (list Operation) :=
  if env_Type e =? EnvelopeTypeEnvelopeTypeTxFeeBump then
    match env_FeeBump e with
    | Some fb =>
        match inner_V1 (fb_InnerTx (fb_Tx fb)) with
        | Some v1 => Some (tx_Operations (v1_Tx v1))
        | None => None
        end
    | None => None
    end
  else if env_Type e =? EnvelopeTypeEnvelopeTypeTx then
    match env_V1 e with
    | Some v1 => Some (tx_Operations (v1_Tx v1))
    | None => None
    end
  else if env_Type e =? EnvelopeTypeEnvelopeTypeTxV0 then
    match env_V0 e with
    | Some v0 => Some (v0_Operations (v0_Tx v0))
    | None => None
    end
  else None.

(** [func (e TransactionEnvelope) SourceAccount() MuxedAccount] *)
Definition SourceAccount (e : TransactionEnvelope) : option MuxedAccount :=
  if env_Type e =? EnvelopeTypeEnvelopeTypeTxFeeBump then
    match env_FeeBump e with
    | Some fb =>
        match inner_V1 (fb_InnerTx (fb_Tx fb)) with
        | Some v1 => Some (tx_SourceAccount (v1_Tx v1))
        | None => None
        end
    | None => None
    end
  else if env_Type e =? EnvelopeTypeEnvelopeTypeTx then
    match env_V1 e with
    | Some v1 => Some (tx_SourceAccount (v1_Tx v1))
    | None => None
    end
  else if env_Type e =? EnvelopeTypeEnvelopeTypeTxV0 then
    match env_V0 e with
    | Some v0 => Some (KeyTypeEd25519 (v0_SourceAccountEd25519 (v0_Tx v0)))
    | None => None
    end
  else None.

Record LedgerCloseMetaV2 := {
  TotalByteSizeOfBucketList : Z
}.

Record LedgerCloseMeta := {
  meta_V : Z;
  meta_V2 : option LedgerCloseMetaV2
}.

(** What the XDR decoder can produce: the discriminant selects the one
    arm that is set. *)
Definition ext_decoded (x : TransactionExt) : bool :=
  match ext_SorobanData x with
  | None => ext_V x =? 0
  | Some _ => ext_V x =? 1
  end.

Definition v1_decoded (v1 : TransactionV1Envelope) : bool :=
  ext_decoded (tx_Ext (v1_Tx v1)).

Definition envelope_decoded (e : TransactionEnvelope) : bool :=
  match env_V0 e, env_V1 e, env_FeeBump e with
  | Some _, None, None => env_Type e =? EnvelopeTypeEnvelopeTypeTxV0
  | None, Some v1, None =>
      (env_Type e =? EnvelopeTypeEnvelopeTypeTx) && v1_decoded v1
  | None, None, Some fb =>
      (env_Type e =? EnvelopeTypeEnvelopeTypeTxFeeBump)
      && (inner_Type (fb_InnerTx (fb_Tx fb)) =? EnvelopeTypeEnvelopeTypeTx)
      && match inner_V1 (fb_InnerTx (fb_Tx fb)) with
         | Some v1 => v1_decoded v1
         | None => false
         end
  | _, _, _ => false
  end.

End xdr.

(** ** Package [preflight] *)
Module preflight.

(** Modelled from the spec: the struct [preflight.Preflight] is declared in
    [internal/preflight]; these are the fields the handler copies (the
    execution trace of the spec: output value, events, authorization
    entries, transaction data, minimum fee, CPU instructions, memory
    bytes). *)
Record Preflight := {
  Events : list string;
  TransactionData : string;
  MinFee : Z;
  Result : string;
  Auth : list string;
  CPUInstructions : Z;
  MemoryBytes : Z
}.

End preflight.

(** ** Package [db]: the read interfaces *)
Module db.

(** Modelled from the spec: the interfaces [LedgerEntryReadTx],
    [LedgerEntryReader] and [LedgerReader] are declared in [internal/db];
    these are the methods the handler calls, each given by the result it
    returns during one simulation. *)
Record LedgerEntryReadTx := {
  GetLatestLedgerSequence : Z * error;
  Done : error
}.

Record LedgerEntryReader := {
  NewCachedTx : LedgerEntryReadTx * error
}.

Record LedgerReader := {
  GetLedger : Z -> xdr.LedgerCloseMeta * bool * error
}.

End db.

(** ** Package [methods] *)

Record SimulateTransactionRequest := {
  Transaction : string
}.

Record SimulateTransactionCost := {
  CPUInstructions : Z;
  MemoryBytes : Z
}.

Record SimulateHostFunctionResult := {
  Auth : list string;
  XDR : string
}.

Record SimulateTransactionResponse := {
  Error : string;
  TransactionData : string;
  Events : list string;
  MinResourceFee : Z;
  Results : list SimulateHostFunctionResult;
  Cost : SimulateTransactionCost;
  LatestLedger : Z
}.

Record PreflightGetter := {
  GetPreflight :
    db.LedgerEntryReadTx -> Z -> xdr.AccountId -> xdr.OperationBody ->
    xdr.LedgerFootprint -> preflight.Preflight * error
}.

(** [SimulateTransactionResponse{Error: msg}] *)
Definition errorResponse (msg : string) : SimulateTransactionResponse :=
  {| Error := msg; TransactionData := ""; Events := []; MinResourceFee := 0;
     Results := []; Cost := {| CPUInstructions := 0; MemoryBytes := 0 |};
     LatestLedger := 0 |}.

(** [SimulateTransactionResponse{Error: msg, LatestLedger: l}] *)
Definition errorResponseAt (msg : string) (l : Z) : SimulateTransactionResponse :=
  {| Error := msg; TransactionData := ""; Events := []; MinResourceFee := 0;
     Results := []; Cost := {| CPUInstructions := 0; MemoryBytes := 0 |};
     LatestLedger := l |}.

(** ** Effects and control *)

Inductive Effect :=
| EvLogInfo (msg : string)
| EvNewCachedTx (err : error)
| EvGetLatestLedgerSequence (res : Z * error)
| EvGetLedger (seq : Z) (res : xdr.LedgerCloseMeta * bool * error)
| EvGetPreflight (bucketListSize : Z) (sourceAccount : xdr.AccountId)
    (opBody : xdr.OperationBody) (footprint : xdr.LedgerFootprint)
    (res : preflight.Preflight * error)
| EvDone.

(** How a block of statements ends: it falls through with a value, executes
    a [return] of the enclosing function, or panics. *)
Inductive Ctl (R A : Type) :=
| Next (a : A)
| Exit (r : R)
| Panic.
Arguments Next {R A} a.
Arguments Exit {R A} r.
Arguments Panic {R A}.

Definition Sim (R A : Type) : Type := list Effect * Ctl R A.

Definition ret {R A} (a : A) : Sim R A := ([], Next a).
Definition exit {R A} (r : R) : Sim R A := ([], Exit r).
Definition panic {R A} : Sim R A := ([], Panic).
Definition emit {R} (e : Effect) : Sim R unit := ([e], Next tt).

Definition bind {R A B} (m : Sim R A) (f : A -> Sim R B) : Sim R B :=
  match m with
  | (t, Next a) => let '(t', c) := f a in ((t ++ t')%list, c)
  | (t, Exit r) => (t, Exit r)
  | (t, Panic) => (t, Panic)
  end.

(** [defer]: the deferred call runs when the block is left, whichever way. *)
Definition defer {R A} (e : Effect) (m : Sim R A) : Sim R A :=
  let '(t, c) := m in ((t ++ [e])%list, c).

(** Reading through a pointer. *)
Definition deref {R A} (p : option A) : Sim R A :=
  match p with
  | Some a => ret a
  | None => panic
  end.

Declare Scope sim_scope.
Delimit Scope sim_scope with sim.
Notation "x <- m ;; k" := (bind m (fun x => k))
  (at level 61, m at next level, right associativity) : sim_scope.
Notation "' p <- m ;; k" := (bind m (fun x => let p := x in k))
  (at level 61, p pattern, m at next level, right associativity) : sim_scope.
Notation "m ;;; k" := (bind m (fun _ => k))
  (at level 61, right associativity) : sim_scope.
Local Open Scope sim_scope.

(** What the caller of a function sees. *)
Inductive Outcome (R : Type) :=
| Returned (r : R)
| Panicked.
Arguments Returned {R} r.
Arguments Panicked {R}.

Definition run {R} (m : Sim R R) : list Effect * Outcome R :=
  match m with
  | (t, Next r) => (t, Returned r)
  | (t, Exit r) => (t, Returned r)
  | (t, Panic) => (t, Panicked)
  end.

(** ** [getBucketListSize] *)

Definition getBucketListSize {R} (ledgerReader : db.LedgerReader)
    (latestLedger : Z) : Sim R (Z * error) :=
  let res := db.GetLedger ledgerReader latestLedger in
  emit (EvGetLedger latestLedger res) ;;;
  let '(closeMeta, ok, err) := res in
  match err with
  | Some e => ret (0, Some e)
  | None =>
      if negb ok then
        ret (0, Some ("missing meta for latest ledger (" ++ fmt_d latestLedger ++ ")"))
      else if negb (xdr.meta_V closeMeta =? 2) then
        ret (0, Some ("latest ledger (" ++ fmt_d latestLedger
                      ++ ") meta has unexpected verion ("
                      ++ fmt_d (xdr.meta_V closeMeta) ++ ")"))
      else
        v2 <- deref (xdr.meta_V2 closeMeta) ;;
        ret (uint64 (xdr.TotalByteSizeOfBucketList v2), None)
  end.

(** ** [NewSimulateTransactionHandler] *)

Section Handler.

(** [xdr.SafeUnmarshalBase64] into a [TransactionEnvelope]; [None] when it
    returns an error. *)
Variable SafeUnmarshalBase64 : string -> option xdr.TransactionEnvelope.

(** [func (e OperationType) String() string] *)
Variable OperationType_String : xdr.OperationType -> string.

Variable ledgerEntryReader : db.LedgerEntryReader.
Variable ledgerReader : db.LedgerReader.
Variable getter : PreflightGetter.

Definition msgUnmarshal := "Could not unmarshal transaction".
Definition msgOperations := "Transaction contains more than one operation".
Definition msgSorobanData :=
  "To perform a SimulateTransaction for BumpFootprintExpiration or RestoreFootprint operations, SorobanTransactionData must be provided".
Definition msgUnsupported := "Transaction contains unsupported operation type: ".
Definition msgReadTx := "Cannot create read transaction".

Definition simulate (request : SimulateTransactionRequest)
  : Sim SimulateTransactionResponse SimulateTransactionResponse :=
  (* l. 49-56 *)
  txEnvelope <-
    match SafeUnmarshalBase64 (Transaction request) with
    | None =>
        emit (EvLogInfo "could not unmarshal simulate transaction envelope") ;;;
        exit (errorResponse msgUnmarshal)
    | Some e => ret e
    end ;;
  (* l. 57-62 *)
  ops <- deref (xdr.Operations txEnvelope) ;;
  (if negb (Nat.eqb (List.length ops) 1) then exit (errorResponse msgOperations)
   else ret tt) ;;;
  op <- deref (nth_error ops 0) ;;
  (* l. 64-69 *)
  sourceAccount <-
    match xdr.op_SourceAccount op with
    | Some opSourceAccount => ret (xdr.ToAccountId opSourceAccount)
    | None =>
        a <- deref (xdr.SourceAccount txEnvelope) ;;
        ret (xdr.ToAccountId a)
    end ;;
  (* l. 71-85; the test of l. 75 is [a && b], [b] evaluated only when [a]
     holds *)
  let ty := xdr.body_Type (xdr.op_Body op) in
  footprint <-
    (if ty =? xdr.OperationTypeInvokeHostFunction then
       ret xdr.LedgerFootprint_zero
     else if (ty =? xdr.OperationTypeBumpFootprintExpiration)
             || (ty =? xdr.OperationTypeRestoreFootprint) then
       missing <-
         (if negb (xdr.env_Type txEnvelope =? xdr.EnvelopeTypeEnvelopeTypeTx) then
            v1 <- deref (xdr.env_V1 txEnvelope) ;;
            ret (negb (xdr.ext_V (xdr.tx_Ext (xdr.v1_Tx v1)) =? 1))
          else ret false) ;;
       (if missing : bool then exit (errorResponse msgSorobanData) else ret tt) ;;;
       v1 <- deref (xdr.env_V1 txEnvelope) ;;
       sorobanData <- deref (xdr.ext_SorobanData (xdr.tx_Ext (xdr.v1_Tx v1))) ;;
       ret (xdr.Footprint (xdr.Resources sorobanData))
     else
       exit (errorResponse (msgUnsupported ++ OperationType_String ty))) ;;
  (* l. 87-132 *)
  let '(readTx, err) := db.NewCachedTx ledgerEntryReader in
  emit (EvNewCachedTx err) ;;;
  match err with
  | Some _ => exit (errorResponse msgReadTx)
  | None =>
      defer EvDone (
        let '(latestLedger, err) := db.GetLatestLedgerSequence readTx in
        emit (EvGetLatestLedgerSequence (latestLedger, err)) ;;;
        match err with
        | Some e => exit (errorResponse (Error_ e))
        | None =>
            ' (bucketListSize, err) <- getBucketListSize ledgerReader latestLedger ;;
            match err with
            | Some e => exit (errorResponse (Error_ e))
            | None =>
                let '(result, err) :=
                  GetPreflight getter readTx bucketListSize sourceAccount
                    (xdr.op_Body op) footprint in
                emit (EvGetPreflight bucketListSize sourceAccount
                        (xdr.op_Body op) footprint (result, err)) ;;;
                match err with
                | Some e =>
                    exit (errorResponseAt (Error_ e) (int64 latestLedger))
                | None =>
                    ret {| Error := "";
                           Results :=
                             [ {| XDR := preflight.Result result;
                                  Auth := preflight.Auth result |} ];
                           Events := preflight.Events result;
                           TransactionData := preflight.TransactionData result;
                           MinResourceFee := preflight.MinFee result;
                           Cost :=
                             {| CPUInstructions := preflight.CPUInstructions result;
                                MemoryBytes := preflight.MemoryBytes result |};
                           LatestLedger := int64 latestLedger |}
                end
            end
        end)
  end.

(** The handler as its caller sees it: the calls it made on its
    collaborators, and the response or the panic. *)
Definition NewSimulateTransactionHandler (request : SimulateTransactionRequest)
  : list Effect * Outcome SimulateTransactionResponse :=
  run (simulate request).

End Handler.

(** ** Sample data *)
Module Sample.

Definition account : xdr.MuxedAccount := xdr.KeyTypeEd25519 "GA7Q".

Definition operation (ty : xdr.OperationType) : xdr.Operation :=
  {| xdr.op_SourceAccount := None;
     xdr.op_Body := {| xdr.body_Type := ty; xdr.body_arm := "AAAA" |} |}.

Definition footprint : xdr.LedgerFootprint :=
  {| xdr.ReadOnly := ["key-code"]; xdr.ReadWrite := ["key-data"] |}.

Definition sorobanData : xdr.SorobanTransactionData :=
  {| xdr.Resources :=
       {| xdr.Footprint := footprint; xdr.Instructions := 0;
          xdr.ReadBytes := 0; xdr.WriteBytes := 0 |};
     xdr.RefundableFee := 0 |}.

Definition extV0 : xdr.TransactionExt :=
  {| xdr.ext_V := 0; xdr.ext_SorobanData := None |}.

Definition extV1 : xdr.TransactionExt :=
  {| xdr.ext_V := 1; xdr.ext_SorobanData := Some sorobanData |}.

Definition v1 (ops : list xdr.Operation) (ext : xdr.TransactionExt)
  : xdr.TransactionV1Envelope :=
  {| xdr.v1_Tx := {| xdr.tx_SourceAccount := account;
                     xdr.tx_Operations := ops;
                     xdr.tx_Ext := ext |} |}.

(** An [EnvelopeTypeTx] envelope. *)
Definition envelopeTx (ops : list xdr.Operation) (ext : xdr.TransactionExt)
  : xdr.TransactionEnvelope :=
  {| xdr.env_Type := xdr.EnvelopeTypeEnvelopeTypeTx;
     xdr.env_V0 := None;
     xdr.env_V1 := Some (v1 ops ext);
     xdr.env_FeeBump := None |}.

(** A fee-bump envelope around a V1 transaction. *)
Definition envelopeFeeBump (ops : list xdr.Operation) (ext : xdr.TransactionExt)
  : xdr.TransactionEnvelope :=
  {| xdr.env_Type := xdr.EnvelopeTypeEnvelopeTypeTxFeeBump;
     xdr.env_V0 := None;
     xdr.env_V1 := None;
     xdr.env_FeeBump :=
       Some {| xdr.fb_Tx :=
                 {| xdr.fb_FeeSource := account;
                    xdr.fb_InnerTx :=
                      {| xdr.inner_Type := xdr.EnvelopeTypeEnvelopeTypeTx;
                         xdr.inner_V1 := Some (v1 ops ext) |} |} |} |}.

(** A decoder that knows a handful of envelopes, by name. *)
Definition unmarshal (s : string) : option xdr.TransactionEnvelope :=
  if String.eqb s "invoke" then
    Some (envelopeTx [operation xdr.OperationTypeInvokeHostFunction] extV0)
  else if String.eqb s "invoke-with-data" then
    Some (envelopeTx [operation xdr.OperationTypeInvokeHostFunction] extV1)
  else if String.eqb s "bump" then
    Some (envelopeTx [operation xdr.OperationTypeBumpFootprintExpiration] extV1)
  else if String.eqb s "bump-no-data" then
    Some (envelopeTx [operation xdr.OperationTypeBumpFootprintExpiration] extV0)
  else if String.eqb s "restore-fee-bump" then
    Some (envelopeFeeBump [operation xdr.OperationTypeRestoreFootprint] extV1)
  else if String.eqb s "payment" then
    Some (envelopeTx [operation xdr.OperationTypePayment] extV0)
  else if String.eqb s "two-payments" then
    Some (envelopeTx [operation xdr.OperationTypePayment;
                      operation xdr.OperationTypePayment] extV0)
  else if String.eqb s "no-operation" then
    Some (envelopeTx [] extV0)
  else None.

Definition typeName (ty : xdr.OperationType) : string :=
  if (ty =? xdr.OperationTypePayment)%Z then "OperationTypePayment"
  else "OperationType" ++ fmt_d ty.

Definition request (s : string) : SimulateTransactionRequest :=
  {| Transaction := s |}.

Definition trace : preflight.Preflight :=
  {| preflight.Events := ["ev0"; "ev1"];
     preflight.TransactionData := "AAAAdata";
     preflight.MinFee := 1234;
     preflight.Result := "AAAAAwAAAAU=";
     preflight.Auth := ["auth0"];
     preflight.CPUInstructions := 1048576;
     preflight.MemoryBytes := 65536 |}.

Definition readTx (latest : Z * error) : db.LedgerEntryReadTx :=
  {| db.GetLatestLedgerSequence := latest; db.Done := None |}.

Definition entryReader (latest : Z * error) : db.LedgerEntryReader :=
  {| db.NewCachedTx := (readTx latest, None) |}.

Definition closeMeta (v size : Z) : xdr.LedgerCloseMeta :=
  {| xdr.meta_V := v;
     xdr.meta_V2 :=
       if (v =? 2)%Z then Some {| xdr.TotalByteSizeOfBucketList := size |}
       else None |}.

(** Every ledger has a close meta of version [v]. *)
Definition ledgers (v size : Z) : db.LedgerReader :=
  {| db.GetLedger := fun _ => (closeMeta v size, true, None) |}.

Definition getterOf (res : preflight.Preflight * error) : PreflightGetter :=
  {| GetPreflight := fun _ _ _ _ _ => res |}.

Definition handler latest v res (s : string) :=
  NewSimulateTransactionHandler unmarshal typeName
    (entryReader latest) (ledgers v 4096) (getterOf res) (request s).

(** Another ledger store: its read transaction reports an error when
    released, and it has the close meta of ledger 1000 only. *)
Definition otherEntryReader : db.LedgerEntryReader :=
  {| db.NewCachedTx :=
       ({| db.GetLatestLedgerSequence := (1000, None);
           db.Done := Some "already closed" |}, None) |}.

Definition otherLedgers : db.LedgerReader :=
  {| db.GetLedger := fun seq =>
       if (seq =? 1000)%Z then (closeMeta 2 4096, true, None)
       else (closeMeta 0 0, false, None) |}.

End Sample.

(** ** Observations on a run *)

(** The run opened a ledger-entry read transaction. *)
Definition snapshot_opened (tr : list Effect) : bool :=
  existsb (fun ev => match ev with EvNewCachedTx _ => true | _ => false end) tr.

(** The run called [GetPreflight]. *)
Definition preflight_invoked (tr : list Effect) : bool :=
  existsb (fun ev => match ev with EvGetPreflight _ _ _ _ _ => true | _ => false end) tr.

(** The error a collaborator returned, when the handler reports it with
    [err.Error()] (the error of [NewCachedTx] is replaced by a fixed
    message). *)
Definition reported_error (ev : Effect) : error :=
  match ev with
  | EvGetLatestLedgerSequence (_, err) => err
  | EvGetLedger _ (_, _, err) => err
  | EvGetPreflight _ _ _ _ (_, err) => err
  | _ => None
  end.

(** None of the result-bearing fields of a response is set. *)
Definition no_result (r : SimulateTransactionResponse) : Prop :=
  Results r = [] /\ TransactionData r = "" /\ MinResourceFee r = 0
  /\ Cost r = {| CPUInstructions := 0; MemoryBytes := 0 |}.

(** A response carries either an error message and no result, or no error
    message and a result. *)
Definition error_xor_result (r : SimulateTransactionResponse) : Prop :=
  (Error r <> "" /\ no_result r) \/ (Error r = "" /\ ~ no_result r).

Definition is_footprint_op (ty : xdr.OperationType) : Prop :=
  ty = xdr.OperationTypeBumpFootprintExpiration
  \/ ty = xdr.OperationTypeRestoreFootprint.

Definition is_supported_op (ty : xdr.OperationType) : Prop :=
  ty = xdr.OperationTypeInvokeHostFunction \/ is_footprint_op ty.

(** The envelope carries inline resource data where the handler reads it:
    it is of type [EnvelopeTypeTx] and the extension of its V1 transaction
    holds [SorobanData]. *)
Definition has_inline_data (e : xdr.TransactionEnvelope) : Prop :=
  xdr.env_Type e = xdr.EnvelopeTypeEnvelopeTypeTx
  /\ exists v1 sorobanData,
      xdr.env_V1 e = Some v1
      /\ xdr.ext_SorobanData (xdr.tx_Ext (xdr.v1_Tx v1)) = Some sorobanData.

(** The four classes of input error. *)
Inductive InputErrorKind :=
| MalformedEnvelope
| TooManyOperations
| UnsupportedOperation
| MissingResourceData.

(** The requests of each class, with the message the handler has for the
    class: an envelope that does not decode (l. 50); an envelope that does
    not hold exactly one operation (l. 57); a single operation of another
    type than the three simulated ones (l. 81); a BumpFootprintExpiration
    or RestoreFootprint operation in an envelope that does not carry inline
    resource data (l. 74-79). *)
Inductive InputError
    (SafeUnmarshalBase64 : string -> option xdr.TransactionEnvelope)
    (OperationType_String : xdr.OperationType -> string)
    (request : SimulateTransactionRequest)
  : InputErrorKind -> string -> Prop :=
| input_malformed :
    SafeUnmarshalBase64 (Transaction request) = None ->
    InputError SafeUnmarshalBase64 OperationType_String request
      MalformedEnvelope
      "Could not unmarshal transaction"
| input_operation_count txEnvelope ops :
    SafeUnmarshalBase64 (Transaction request) = Some txEnvelope ->
    xdr.Operations txEnvelope = Some ops ->
    List.length ops <> 1%nat ->
    InputError SafeUnmarshalBase64 OperationType_String request
      TooManyOperations
      "Transaction contains more than one operation"
| input_unsupported txEnvelope op :
    SafeUnmarshalBase64 (Transaction request) = Some txEnvelope ->
    xdr.Operations txEnvelope = Some [op] ->
    ~ is_supported_op (xdr.body_Type (xdr.op_Body op)) ->
    InputError SafeUnmarshalBase64 OperationType_String request
      UnsupportedOperation
      ("Transaction contains unsupported operation type: "
       ++ OperationType_String (xdr.body_Type (xdr.op_Body op)))
| input_missing_data txEnvelope op :
    SafeUnmarshalBase64 (Transaction request) = Some txEnvelope ->
    xdr.Operations txEnvelope = Some [op] ->
    is_footprint_op (xdr.body_Type (xdr.op_Body op)) ->
    ~ has_inline_data txEnvelope ->
    InputError SafeUnmarshalBase64 OperationType_String request
      MissingResourceData
      "To perform a SimulateTransaction for BumpFootprintExpiration or RestoreFootprint operations, SorobanTransactionData must be provided".

(** The response of the last [return] of the handler, for the preflight
    [result] at ledger [latestLedger]. *)
Definition successResponse (result : preflight.Preflight) (latestLedger : Z)
  : SimulateTransactionResponse :=
  {| Error := "";
     Results := [ {| XDR := preflight.Result result;
                     Auth := preflight.Auth result |} ];
     Events := preflight.Events result;
     TransactionData := preflight.TransactionData result;
     MinResourceFee := preflight.MinFee result;
     Cost := {| CPUInstructions := preflight.CPUInstructions result;
                MemoryBytes := preflight.MemoryBytes result |};
     LatestLedger := int64 latestLedger |}.

(** A close meta the XDR decoder can produce, as far as the handler reads
    it: version 2 comes with its arm. *)
Definition closeMeta_decoded (m : xdr.LedgerCloseMeta) : Prop :=
  xdr.meta_V m = 2 -> xdr.meta_V2 m <> None.

(** The source account of the simulated operation (l. 64-69): the one of
    the operation when set, else the one of the envelope. *)
Definition resolvedSource (e : xdr.TransactionEnvelope) (op : xdr.Operation)
  : option xdr.AccountId :=
  match xdr.op_SourceAccount op with
  | Some a => Some (xdr.ToAccountId a)
  | None => option_map xdr.ToAccountId (xdr.SourceAccount e)
  end.

(** The calls of a run on an open read transaction, in their order. *)
Inductive SnapshotCalls : list Effect -> Prop :=
| calls_sequence res :
    SnapshotCalls [EvGetLatestLedgerSequence res]
| calls_ledger latestLedger res :
    SnapshotCalls [EvGetLatestLedgerSequence (latestLedger, None);
                   EvGetLedger latestLedger res]
| calls_preflight latestLedger closeMeta bucketListSize sourceAccount opBody
    footprint res :
    SnapshotCalls [EvGetLatestLedgerSequence (latestLedger, None);
                   EvGetLedger latestLedger (closeMeta, true, None);
                   EvGetPreflight bucketListSize sourceAccount opBody
                     footprint res].

(** The traces the handler can leave. *)
Inductive Protocol : list Effect -> Prop :=
| protocol_silent : Protocol []
| protocol_log msg : Protocol [EvLogInfo msg]
| protocol_not_opened e : Protocol [EvNewCachedTx (Some e)]
| protocol_opened calls :
    SnapshotCalls calls ->
    Protocol (EvNewCachedTx None :: calls ++ [EvDone])%list.

(** The run called a collaborator (the ledger entry reader, the read
    transaction, the ledger reader or the preflight getter). *)
Definition collaborator_called (tr : list Effect) : bool :=
  existsb (fun ev => match ev with EvLogInfo _ => false | _ => true end) tr.

(** The request passes the validation of l. 49-85: its envelope decodes and
    holds exactly one operation, of one of the three simulated types, and
    for a footprint operation the envelope has a V1 transaction with
    [SorobanData]. *)
Definition validated
    (SafeUnmarshalBase64 : string -> option xdr.TransactionEnvelope)
    (request : SimulateTransactionRequest) : Prop :=
  exists txEnvelope op,
    SafeUnmarshalBase64 (Transaction request) = Some txEnvelope
    /\ xdr.Operations txEnvelope = Some [op]
    /\ is_supported_op (xdr.body_Type (xdr.op_Body op))
    /\ (is_footprint_op (xdr.body_Type (xdr.op_Body op)) ->
        exists v1 sorobanData,
          xdr.env_V1 txEnvelope = Some v1
          /\ xdr.ext_SorobanData (xdr.tx_Ext (xdr.v1_Tx v1)) = Some sorobanData).

Lemma is_footprint_op_test (ty : xdr.OperationType) :
  ((ty =? xdr.OperationTypeBumpFootprintExpiration)
   || (ty =? xdr.OperationTypeRestoreFootprint))%bool = true
  <-> is_footprint_op ty.
Proof.
  unfold is_footprint_op. now rewrite orb_true_iff, !Z.eqb_eq.
Qed.

(** ** Proof automation *)

Ltac unfold_sim :=
  unfold NewSimulateTransactionHandler, simulate, getBucketListSize, run,
    bind, defer, deref, emit, ret, exit, panic, Error_.

(** Case analysis on the innermost scrutinee of the goal. *)
Ltac break_innermost :=
  match goal with
  | |- context [match ?x with _ => _ end] =>
      lazymatch x with
      | context [match _ with _ => _ end] => fail
      | _ => destruct x eqn:?
      end
  end.

(** All the paths through the handler. *)
Ltac sim_paths := unfold_sim; repeat (break_innermost; cbn beta iota).

(** Boolean tests of the source, as propositions. *)
Ltac tests :=
  repeat match goal with
    | H : negb _ = true |- _ => apply negb_true_iff in H
    | H : negb _ = false |- _ => apply negb_false_iff in H
    | H : (_ || _)%bool = true |- _ =>
        first [apply is_footprint_op_test in H | apply orb_true_iff in H]
    | H : (_ || _)%bool = false |- _ => apply orb_false_iff in H; destruct H
    | H : (_ =? _)%Z = true |- _ => apply Z.eqb_eq in H
    | H : (_ =? _)%Z = false |- _ => apply Z.eqb_neq in H
    | H : (_ =? _)%nat = true |- _ => apply Nat.eqb_eq in H
    | H : (_ =? _)%nat = false |- _ => apply Nat.eqb_neq in H
    end.

(** Membership of an event in the trace of one path. *)
Ltac in_trace :=
  repeat match goal with
    | H : In _ _ |- _ => simpl in H
    | H : _ \/ _ |- _ => destruct H as [H | H]
    | H : False |- _ => destruct H
    | H : @eq Effect _ _ |- _ =>
        first [discriminate H | inversion H; subst; clear H]
    end.

(** ** Arithmetic of the conversions *)

Lemma int64_uint32 (x : Z) : 0 <= x < 2 ^ 32 -> int64 x = x.
Proof.
  intros H. unfold int64.
  rewrite Z.mod_small; lia.
Qed.

Lemma uint64_small (x : Z) : 0 <= x < 2 ^ 64 -> uint64 x = x.
Proof. intros H. unfold uint64. now apply Z.mod_small. Qed.

(** Every envelope the decoder produces has a list of operations. *)
Lemma Operations_of_decoded (e : xdr.TransactionEnvelope) :
  xdr.envelope_decoded e = true -> exists ops, xdr.Operations e = Some ops.
Proof.
  unfold xdr.envelope_decoded, xdr.Operations.
  destruct (xdr.env_V0 e), (xdr.env_V1 e), (xdr.env_FeeBump e) as [fb |];
    try discriminate; intros H.
  - apply Z.eqb_eq in H. rewrite H. cbn. eauto.
  - apply andb_true_iff in H as [H _]. apply Z.eqb_eq in H. rewrite H. cbn. eauto.
  - apply andb_true_iff in H as [H Hv1]. apply andb_true_iff in H as [H _].
    apply Z.eqb_eq in H. rewrite H. cbn.
    destruct (xdr.inner_V1 (xdr.fb_InnerTx (xdr.fb_Tx fb))); [eauto | discriminate].
Qed.

(** Only an [EnvelopeTypeTx] envelope comes out of the decoder with a V1
    arm. *)
Lemma V1_of_decoded (e : xdr.TransactionEnvelope) v1 :
  xdr.envelope_decoded e = true ->
  xdr.env_V1 e = Some v1 ->
  xdr.env_Type e = xdr.EnvelopeTypeEnvelopeTypeTx.
Proof.
  unfold xdr.envelope_decoded. intros Hwf Hv1. rewrite Hv1 in Hwf.
  destruct (xdr.env_V0 e), (xdr.env_FeeBump e); try discriminate Hwf.
  apply andb_true_iff in Hwf as [Hty _]. now apply Z.eqb_eq.
Qed.

Lemma single_operation (ops : list xdr.Operation) (op : xdr.Operation) :
  List.length ops = 1%nat -> nth_error ops 0 = Some op -> ops = [op].
Proof.
  destruct ops as [| o [| o' rest]]; simpl; intros Hlen Hnth;
    try discriminate.
  now injection Hnth as ->.
Qed.

Lemma single_operation_exists (ops : list xdr.Operation) :
  List.length ops = 1%nat -> nth_error ops 0 <> None.
Proof. destruct ops; simpl; intros H; discriminate. Qed.

(** ** [getBucketListSize] on a ledger whose close meta is present *)

Lemma getBucketListSize_unexpected_version {R} ledgerReader latestLedger closeMeta :
  db.GetLedger ledgerReader latestLedger = (closeMeta, true, None) ->
  xdr.meta_V closeMeta <> 2 ->
  getBucketListSize (R := R) ledgerReader latestLedger
  = ([EvGetLedger latestLedger (closeMeta, true, None)],
     Next (0, Some ("latest ledger (" ++ fmt_d latestLedger
                    ++ ") meta has unexpected verion ("
                    ++ fmt_d (xdr.meta_V closeMeta) ++ ")"))).
Proof.
  intros Hget Hv. unfold getBucketListSize. rewrite Hget. cbn.
  apply Z.eqb_neq in Hv. now rewrite Hv.
Qed.

Lemma getBucketListSize_version_2 {R} ledgerReader latestLedger closeMeta v2 :
  db.GetLedger ledgerReader latestLedger = (closeMeta, true, None) ->
  xdr.meta_V closeMeta = 2 ->
  xdr.meta_V2 closeMeta = Some v2 ->
  getBucketListSize (R := R) ledgerReader latestLedger
  = ([EvGetLedger latestLedger (closeMeta, true, None)],
     Next (uint64 (xdr.TotalByteSizeOfBucketList v2), None)).
Proof.
  intros Hget Hv Hv2. unfold getBucketListSize. rewrite Hget. cbn.
  rewrite Hv. cbn. now rewrite Hv2.
Qed.

Section Properties.

Variable SafeUnmarshalBase64 : string -> option xdr.TransactionEnvelope.
Variable OperationType_String : xdr.OperationType -> string.
Variable ledgerEntryReader : db.LedgerEntryReader.
Variable ledgerReader : db.LedgerReader.
Variable getter : PreflightGetter.

Local Abbreviation handler :=
  (NewSimulateTransactionHandler SafeUnmarshalBase64 OperationType_String
     ledgerEntryReader ledgerReader getter).

(** *** Validation *)

Lemma handler_malformed request :
  SafeUnmarshalBase64 (Transaction request) = None ->
  handler request =
    ([EvLogInfo "could not unmarshal simulate transaction envelope"],
     Returned (errorResponse "Could not unmarshal transaction")).
Proof.
  intros Hdec. unfold NewSimulateTransactionHandler, simulate.
  now rewrite Hdec.
Qed.

Lemma handler_operation_count request txEnvelope ops :
  SafeUnmarshalBase64 (Transaction request) = Some txEnvelope ->
  xdr.Operations txEnvelope = Some ops ->
  List.length ops <> 1%nat ->
  handler request =
    ([], Returned (errorResponse "Transaction contains more than one operation")).
Proof.
  intros Hdec Hops Hlen.
  unfold NewSimulateTransactionHandler, simulate.
  rewrite Hdec. cbn. rewrite Hops. cbn.
  destruct (Nat.eqb_spec (List.length ops) 1); [contradiction | reflexivity].
Qed.

(** With one operation, the source account is always found: the envelope
    has the arm [Operations] read. *)
Lemma SourceAccount_of_Operations txEnvelope ops :
  xdr.Operations txEnvelope = Some ops ->
  exists a, xdr.SourceAccount txEnvelope = Some a.
Proof.
  unfold xdr.Operations, xdr.SourceAccount.
  repeat break_innermost; intros; try discriminate; eauto.
Qed.

Lemma handler_unsupported request txEnvelope op :
  SafeUnmarshalBase64 (Transaction request) = Some txEnvelope ->
  xdr.Operations txEnvelope = Some [op] ->
  ~ is_supported_op (xdr.body_Type (xdr.op_Body op)) ->
  handler request =
    ([], Returned (errorResponse
                     ("Transaction contains unsupported operation type: "
                      ++ OperationType_String (xdr.body_Type (xdr.op_Body op))))).
Proof.
  intros Hdec Hops Hty.
  destruct (SourceAccount_of_Operations _ _ Hops) as [a Ha].
  unfold NewSimulateTransactionHandler, simulate.
  rewrite Hdec. cbn. rewrite Hops. cbn. rewrite Ha.
  unfold is_supported_op, is_footprint_op in Hty.
  destruct (Z.eqb_spec (xdr.body_Type (xdr.op_Body op))
              xdr.OperationTypeInvokeHostFunction); [tauto |].
  destruct (Z.eqb_spec (xdr.body_Type (xdr.op_Body op))
              xdr.OperationTypeBumpFootprintExpiration); [tauto |].
  destruct (Z.eqb_spec (xdr.body_Type (xdr.op_Body op))
              xdr.OperationTypeRestoreFootprint); [tauto |].
  destruct (xdr.op_SourceAccount op); reflexivity.
Qed.

Lemma handler_missing_data request txEnvelope op v1 :
  SafeUnmarshalBase64 (Transaction request) = Some txEnvelope ->
  xdr.Operations txEnvelope = Some [op] ->
  is_footprint_op (xdr.body_Type (xdr.op_Body op)) ->
  xdr.env_Type txEnvelope <> xdr.EnvelopeTypeEnvelopeTypeTx ->
  xdr.env_V1 txEnvelope = Some v1 ->
  xdr.ext_V (xdr.tx_Ext (xdr.v1_Tx v1)) <> 1 ->
  handler request =
    ([], Returned (errorResponse
       "To perform a SimulateTransaction for BumpFootprintExpiration or RestoreFootprint operations, SorobanTransactionData must be provided")).
Proof.
  intros Hdec Hops Hty Henv Hv1 Hext.
  destruct (SourceAccount_of_Operations _ _ Hops) as [a Ha].
  unfold NewSimulateTransactionHandler, simulate.
  assert (Hsw :
    (xdr.body_Type (xdr.op_Body op) =? xdr.OperationTypeInvokeHostFunction) = false
    /\ ((xdr.body_Type (xdr.op_Body op) =? xdr.OperationTypeBumpFootprintExpiration)
        || (xdr.body_Type (xdr.op_Body op) =? xdr.OperationTypeRestoreFootprint))%bool
       = true).
  { destruct Hty as [-> | ->]; split; reflexivity. }
  destruct Hsw as [Hinvoke Hfootprint].
  apply Z.eqb_neq in Henv, Hext.
  rewrite Hdec. cbn. rewrite Hops. cbn. rewrite Ha.
  destruct (xdr.op_SourceAccount op); cbn;
    rewrite Hinvoke, Hfootprint, Henv; cbn; rewrite Hv1; cbn;
    rewrite Hext; reflexivity.
Qed.

(** *** Properties of the handler *)

(** C6. An envelope that decodes but does not hold exactly one operation
    is answered with "Transaction contains more than one operation" and
    no results, whatever the types of its operations: the count is
    checked before the operation type is looked at, and no collaborator
    is called. *)
Theorem C6_operation_count_first request txEnvelope ops :
  SafeUnmarshalBase64 (Transaction request) = Some txEnvelope ->
  xdr.Operations txEnvelope = Some ops ->
  List.length ops <> 1%nat ->
  exists r,
    handler request = ([], Returned r)
    /\ Error r = "Transaction contains more than one operation"
    /\ Results r = []
    /\ r = errorResponse msgOperations.
Proof.
  intros Hdec Hops Hlen.
  exists (errorResponse msgOperations).
  rewrite (handler_operation_count _ _ _ Hdec Hops Hlen).
  repeat split.
Qed.

(** A footprint operation on a decoded envelope without inline resource
    data: the handler panics, at l. 75 or at l. 80, before it calls any
    collaborator. *)
Lemma handler_no_data_panics request txEnvelope op :
  SafeUnmarshalBase64 (Transaction request) = Some txEnvelope ->
  xdr.envelope_decoded txEnvelope = true ->
  xdr.Operations txEnvelope = Some [op] ->
  is_footprint_op (xdr.body_Type (xdr.op_Body op)) ->
  ~ has_inline_data txEnvelope ->
  handler request = ([], Panicked).
Proof.
  intros Hdec Hwf Hops Hty Hno.
  destruct (SourceAccount_of_Operations _ _ Hops) as [a Ha].
  unfold_sim. rewrite Hdec. cbn beta iota. rewrite Hops. cbn. rewrite Ha.
  repeat (break_innermost; cbn beta iota).
  all: try reflexivity.
  all: exfalso; tests.
  all: try solve [match goal with
                  | H : ?t = xdr.OperationTypeInvokeHostFunction |- _ =>
                      destruct Hty as [Hty | Hty]; rewrite Hty in H;
                      discriminate H
                  end].
  all: try solve [destruct Hty as [Hty | Hty]; contradiction].
  all: try solve [match goal with
                  | Hne : xdr.env_Type ?e <> _, Hv : xdr.env_V1 ?e = Some _ |- _ =>
                      exact (Hne (V1_of_decoded e _ Hwf Hv))
                  end].
  all: apply Hno; split; [assumption | eauto].
Qed.

(** C8. The four classes of input error, as the handler treats them.  A
    malformed envelope, a wrong operation count and an unsupported
    operation type are answered with a response whose [error] is the
    message of the class and whose other fields are unset, and the run
    opens no read transaction.  A BumpFootprintExpiration or
    RestoreFootprint envelope without inline resource data, as the decoder
    produces it, gets no response: the run panics; it opens no read
    transaction either. *)
Theorem C8_input_error_before_snapshot request kind msg tr out :
  InputError SafeUnmarshalBase64 OperationType_String request kind msg ->
  handler request = (tr, out) ->
  (kind <> MissingResourceData ->
   snapshot_opened tr = false
   /\ exists r,
       out = Returned r
       /\ Error r = msg
       /\ no_result r /\ Events r = [] /\ LatestLedger r = 0)
  /\ (kind = MissingResourceData ->
      (forall e, SafeUnmarshalBase64 (Transaction request) = Some e ->
                 xdr.envelope_decoded e = true) ->
      snapshot_opened tr = false /\ out = Panicked).
Proof.
  intros [Hdec | env ops Hdec Hops Hlen | env op Hdec Hops Hty
         | env op Hdec Hops Hty Hno] Hrun.
  - rewrite (handler_malformed _ Hdec) in Hrun. injection Hrun as <- <-.
    split; [intros _ | discriminate].
    split; [reflexivity |]. eexists. split; [reflexivity |].
    repeat split.
  - rewrite (handler_operation_count _ _ _ Hdec Hops Hlen) in Hrun.
    injection Hrun as <- <-.
    split; [intros _ | discriminate].
    split; [reflexivity |]. eexists. split; [reflexivity |].
    repeat split.
  - rewrite (handler_unsupported _ _ _ Hdec Hops Hty) in Hrun.
    injection Hrun as <- <-.
    split; [intros _ | discriminate].
    split; [reflexivity |]. eexists. split; [reflexivity |].
    repeat split.
  - split; [intros Hkind; now contradiction Hkind | intros _ Hdecoded].
    rewrite (handler_no_data_panics _ _ _ Hdec (Hdecoded _ Hdec) Hops Hty Hno)
      in Hrun.
    injection Hrun as <- <-. split; reflexivity.
Qed.

(** *** After the snapshot is opened *)

(** What a run that read the close meta of [latestLedger] did next. *)
Lemma handler_close_meta request tr out latestLedger closeMeta :
  handler request = (tr, out) ->
  In (EvGetLedger latestLedger (closeMeta, true, None)) tr ->
  db.GetLedger ledgerReader latestLedger = (closeMeta, true, None)
  /\ (xdr.meta_V closeMeta <> 2 ->
      out = Returned (errorResponse
                        ("latest ledger (" ++ fmt_d latestLedger
                         ++ ") meta has unexpected verion ("
                         ++ fmt_d (xdr.meta_V closeMeta) ++ ")"))
      /\ preflight_invoked tr = false)
  /\ (forall v2 bucketListSize sourceAccount opBody footprint res,
        xdr.meta_V2 closeMeta = Some v2 ->
        In (EvGetPreflight bucketListSize sourceAccount opBody footprint res) tr ->
        bucketListSize = uint64 (xdr.TotalByteSizeOfBucketList v2)).
Proof.
  revert tr out. sim_paths; intros tr out [= <- <-] Hin; in_trace; tests.
  all: try discriminate.
  all: split; [assumption |].
  all: split;
    [ intros Hv; solve [contradiction | split; reflexivity]
    | intros v2 bls src body fp res Hv2 Hpre; in_trace; congruence ].
Qed.

(** What a run that called [GetPreflight] returned. *)
Lemma handler_preflight request tr out bucketListSize sourceAccount opBody
    footprint result err :
  handler request = (tr, out) ->
  In (EvGetPreflight bucketListSize sourceAccount opBody footprint (result, err)) tr ->
  exists readTx latestLedger,
    db.NewCachedTx ledgerEntryReader = (readTx, None)
    /\ db.GetLatestLedgerSequence readTx = (latestLedger, None)
    /\ GetPreflight getter readTx bucketListSize sourceAccount opBody footprint
       = (result, err)
    /\ (forall res, In (EvGetLatestLedgerSequence res) tr ->
                    res = (latestLedger, None))
    /\ out = Returned match err with
                      | Some e => errorResponseAt e (int64 latestLedger)
                      | None => successResponse result latestLedger
                      end.
Proof.
  revert tr out. sim_paths; intros tr out [= <- <-] Hin; in_trace.
  all: do 2 eexists; repeat split; try eassumption.
  all: intros res Hres; in_trace; reflexivity.
Qed.

(** Which footprint a call of [GetPreflight] received. *)
Lemma handler_footprint request tr out txEnvelope op bucketListSize
    sourceAccount opBody footprint res :
  handler request = (tr, out) ->
  SafeUnmarshalBase64 (Transaction request) = Some txEnvelope ->
  xdr.Operations txEnvelope = Some [op] ->
  In (EvGetPreflight bucketListSize sourceAccount opBody footprint res) tr ->
  opBody = xdr.op_Body op
  /\ ((xdr.body_Type opBody = xdr.OperationTypeInvokeHostFunction
       /\ footprint = xdr.LedgerFootprint_zero)
      \/ (is_footprint_op (xdr.body_Type opBody)
          /\ exists v1 sorobanData,
              xdr.env_V1 txEnvelope = Some v1
              /\ xdr.ext_SorobanData (xdr.tx_Ext (xdr.v1_Tx v1)) = Some sorobanData
              /\ footprint = xdr.Footprint (xdr.Resources sorobanData))).
Proof.
  intros Hrun Hdec Hops. revert tr out Hrun.
  unfold_sim. rewrite Hdec. cbn beta iota. rewrite Hops. cbn.
  repeat (break_innermost; cbn beta iota).
  all: intros tr out [= <- <-] Hin; in_trace; tests.
  all: split; [reflexivity |].
  all: first
    [ left; split; [assumption | reflexivity]
    | right; split; [assumption | eauto] ].
Qed.

(** C3. In a simulation that found the close meta of the latest ledger:
    if its version is not 2 the response has as its [error] the message
    naming the ledger and the unexpected version, and nothing else, and
    [GetPreflight] is not called; if its version is 2,
    [getBucketListSize] returns the close meta's
    [TotalByteSizeOfBucketList], and that is the size any call of
    [GetPreflight] receives. *)
Theorem C3_close_meta_version request tr out latestLedger closeMeta :
  handler request = (tr, out) ->
  In (EvGetLedger latestLedger (closeMeta, true, None)) tr ->
  (xdr.meta_V closeMeta <> 2 ->
     (exists r,
         out = Returned r
         /\ Error r = "latest ledger (" ++ fmt_d latestLedger
                      ++ ") meta has unexpected verion ("
                      ++ fmt_d (xdr.meta_V closeMeta) ++ ")"
         /\ no_result r /\ Events r = [] /\ LatestLedger r = 0)
     /\ preflight_invoked tr = false)
  /\ (xdr.meta_V closeMeta = 2 ->
      forall v2,
        xdr.meta_V2 closeMeta = Some v2 ->
        0 <= xdr.TotalByteSizeOfBucketList v2 < 2 ^ 64 ->
        getBucketListSize (R := SimulateTransactionResponse)
          ledgerReader latestLedger
        = ([EvGetLedger latestLedger (closeMeta, true, None)],
           Next (xdr.TotalByteSizeOfBucketList v2, None))
        /\ forall bucketListSize sourceAccount opBody footprint res,
            In (EvGetPreflight bucketListSize sourceAccount opBody footprint res) tr ->
            bucketListSize = xdr.TotalByteSizeOfBucketList v2).
Proof.
  intros Hrun Hin.
  destruct (handler_close_meta _ _ _ _ _ Hrun Hin) as (Hget & Hbad & Hsize).
  split.
  - intros Hv. destruct (Hbad Hv) as [-> Hpre].
    split; [| exact Hpre].
    eexists. split; [reflexivity |]. repeat split.
  - intros Hv v2 Hv2 Hrange. split.
    + rewrite (getBucketListSize_version_2 _ _ _ _ Hget Hv Hv2).
      now rewrite uint64_small.
    + intros bls src body fp res Hpre.
      rewrite (Hsize _ _ _ _ _ _ Hv2 Hpre). now apply uint64_small.
Qed.

(** C5. The footprint a call of [GetPreflight] receives is fixed by the
    type of the single operation: the empty footprint for
    InvokeHostFunction, whatever the envelope declares inline, and for
    BumpFootprintExpiration and RestoreFootprint the footprint of the
    [SorobanData] of the envelope's V1 transaction, as it is. *)
Theorem C5_footprint_by_operation request tr out txEnvelope op bucketListSize
    sourceAccount opBody footprint res :
  handler request = (tr, out) ->
  SafeUnmarshalBase64 (Transaction request) = Some txEnvelope ->
  xdr.Operations txEnvelope = Some [op] ->
  In (EvGetPreflight bucketListSize sourceAccount opBody footprint res) tr ->
  opBody = xdr.op_Body op
  /\ (xdr.body_Type opBody = xdr.OperationTypeInvokeHostFunction ->
      footprint = xdr.LedgerFootprint_zero)
  /\ (is_footprint_op (xdr.body_Type opBody) ->
      exists v1 sorobanData,
        xdr.env_V1 txEnvelope = Some v1
        /\ xdr.ext_SorobanData (xdr.tx_Ext (xdr.v1_Tx v1)) = Some sorobanData
        /\ footprint = xdr.Footprint (xdr.Resources sorobanData)).
Proof.
  intros Hrun Hdec Hops Hin.
  destruct (handler_footprint _ _ _ _ _ _ _ _ _ _ Hrun Hdec Hops Hin)
    as [Hbody [[Hty Hfp] | [Hty Hfp]]].
  - split; [assumption |]. split; [intros _; assumption |].
    intros [Hb | Hr]; rewrite Hty in *; discriminate.
  - split; [assumption |]. split; [| intros _; assumption].
    intros Hinv. destruct Hty as [Hb | Hr]; rewrite Hinv in *; discriminate.
Qed.

(** C7. In a successful simulation ([GetPreflight] returned no error) the
    response's [cost.cpuInsns] and [cost.memBytes] are the CPU
    instructions and memory bytes of the preflight result, and
    [latestLedger] is the sequence the read transaction reported. *)
Theorem C7_success_cost_and_ledger request tr r bucketListSize sourceAccount
    opBody footprint result latestLedger :
  handler request = (tr, Returned r) ->
  In (EvGetPreflight bucketListSize sourceAccount opBody footprint
        (result, None)) tr ->
  In (EvGetLatestLedgerSequence (latestLedger, None)) tr ->
  0 <= latestLedger < 2 ^ 32 ->
  CPUInstructions (Cost r) = preflight.CPUInstructions result
  /\ MemoryBytes (Cost r) = preflight.MemoryBytes result
  /\ LatestLedger r = latestLedger.
Proof.
  intros Hrun Hpre Hseq Hrange.
  destruct (handler_preflight _ _ _ _ _ _ _ _ _ Hrun Hpre)
    as (readTx & l & _ & _ & _ & Huniq & [= ->]).
  specialize (Huniq _ Hseq) as [= <-].
  cbn. repeat split. now apply int64_uint32.
Qed.

(** C10. The response of a successful simulation has exactly one element
    in [results]: the result and the authorization entries of the
    preflight. *)
Theorem C10_success_single_result request tr r bucketListSize sourceAccount
    opBody footprint result :
  handler request = (tr, Returned r) ->
  In (EvGetPreflight bucketListSize sourceAccount opBody footprint
        (result, None)) tr ->
  Results r = [ {| XDR := preflight.Result result;
                   Auth := preflight.Auth result |} ]
  /\ List.length (Results r) = 1%nat.
Proof.
  intros Hrun Hpre.
  destruct (handler_preflight _ _ _ _ _ _ _ _ _ Hrun Hpre)
    as (readTx & l & _ & _ & _ & _ & [= ->]).
  split; reflexivity.
Qed.

(** C2, as the handler has it.  When [GetPreflight] fails, the response
    holds the error message and [latestLedger], the sequence of the read
    transaction, and nothing else: its [events] are empty. *)
Theorem C2_preflight_failure request tr r bucketListSize sourceAccount
    opBody footprint result e latestLedger :
  handler request = (tr, Returned r) ->
  In (EvGetPreflight bucketListSize sourceAccount opBody footprint
        (result, Some e)) tr ->
  In (EvGetLatestLedgerSequence (latestLedger, None)) tr ->
  0 <= latestLedger < 2 ^ 32 ->
  r = errorResponseAt e latestLedger
  /\ Error r = e /\ LatestLedger r = latestLedger /\ Events r = [].
Proof.
  intros Hrun Hpre Hseq Hrange.
  destruct (handler_preflight _ _ _ _ _ _ _ _ _ Hrun Hpre)
    as (readTx & l & _ & _ & _ & Huniq & [= ->]).
  specialize (Huniq _ Hseq) as [= <-].
  rewrite (int64_uint32 _ Hrange). repeat split.
Qed.

Lemma handler_error_or_result request tr r :
  handler request = (tr, Returned r) ->
  (Error r <> "" -> no_result r)
  /\ ((forall ev, In ev tr -> reported_error ev <> Some "") ->
      Error r = "" ->
      exists x, Results r = [x]).
Proof.
  revert tr r. sim_paths; intros tr r [= <- <-].
  all: split;
    [ intros Herr; first [now repeat split | now contradiction Herr]
    | intros Hrep Hempty; cbn in Hempty ].
  all: try discriminate Hempty.
  all: try (eexists; reflexivity).
  all: subst;
    match goal with
    | Hrep : forall ev, In ev ?tr -> _ |- _ =>
        match tr with
        | context [EvGetPreflight ?a ?b ?c ?d (?p, Some "")] =>
            exfalso; apply (Hrep (EvGetPreflight a b c d (p, Some "")));
            [simpl; tauto | reflexivity]
        | context [EvGetLedger ?a (?m, ?ok, Some "")] =>
            exfalso; apply (Hrep (EvGetLedger a (m, ok, Some "")));
            [simpl; tauto | reflexivity]
        | context [EvGetLatestLedgerSequence (?a, Some "")] =>
            exfalso; apply (Hrep (EvGetLatestLedgerSequence (a, Some "")));
            [simpl; tauto | reflexivity]
        end
    end.
Qed.

(** C4, as the handler has it.  A response with a non-empty [error] has
    no result-bearing field set.  Provided no collaborator error that the
    handler reports verbatim has an empty message, every response carries
    exactly one of a non-empty [error] and a result, and a response
    without [error] has exactly one element in [results]. *)
Theorem C4_error_or_result request tr r :
  handler request = (tr, Returned r) ->
  (Error r <> "" -> no_result r)
  /\ ((forall ev, In ev tr -> reported_error ev <> Some "") ->
      error_xor_result r /\ (Error r = "" -> exists x, Results r = [x])).
Proof.
  intros Hrun.
  destruct (handler_error_or_result _ _ _ Hrun) as [Herr Hres].
  split; [exact Herr |]. intros Hrep. split; [| exact (Hres Hrep)].
  destruct (string_dec (Error r) "") as [Hempty | Hnonempty].
  - right. split; [assumption |].
    destruct (Hres Hrep Hempty) as [x Hx].
    intros (Hnone & _). congruence.
  - left. split; [assumption | exact (Herr Hnonempty)].
Qed.

(** On an envelope the XDR decoder produced, the handler never answers
    with the missing-resource-data message: the [return] at that message
    needs a V1 arm on an envelope whose type is not [EnvelopeTypeTx]. *)
Lemma missing_data_error_unreachable request txEnvelope tr r :
  SafeUnmarshalBase64 (Transaction request) = Some txEnvelope ->
  xdr.envelope_decoded txEnvelope = true ->
  handler request = (tr, Returned r) ->
  snapshot_opened tr = false ->
  Error r <> msgSorobanData.
Proof.
  intros Hdec Hwf. revert tr r.
  unfold_sim. rewrite Hdec. cbn beta iota.
  repeat (break_innermost; cbn beta iota).
  all: intros tr r [= <- <-] Hsnap; try discriminate Hsnap.
  all: try (cbn; discriminate).
  all: exfalso; unfold xdr.envelope_decoded in Hwf; tests.
  all: match goal with
       | H : xdr.env_V1 _ = Some _ |- _ => rewrite H in Hwf
       end.
  all: destruct (xdr.env_V0 txEnvelope), (xdr.env_FeeBump txEnvelope);
    try discriminate Hwf.
  all: apply andb_true_iff in Hwf as [Hty _]; apply Z.eqb_eq in Hty.
  all: contradiction.
Qed.

End Properties.

(** ** Determinism *)

(** C9. The response, and the calls made, are a function of the request
    text and of what the collaborators answer: two runs on the same
    envelope text, against collaborators that give the same answers (the
    same outcome of opening the read transaction, the same latest ledger
    sequence, the same close meta for that ledger and the same preflight
    results), produce the same trace and the same response or panic. *)
Theorem C9_deterministic
    (SafeUnmarshalBase64 : string -> option xdr.TransactionEnvelope)
    (OperationType_String : xdr.OperationType -> string)
    (ledgerEntryReader ledgerEntryReader' : db.LedgerEntryReader)
    (ledgerReader ledgerReader' : db.LedgerReader)
    (getter getter' : PreflightGetter)
    (request request' : SimulateTransactionRequest) :
  let readTx := fst (db.NewCachedTx ledgerEntryReader) in
  let readTx' := fst (db.NewCachedTx ledgerEntryReader') in
  let latestLedger := fst (db.GetLatestLedgerSequence readTx) in
  Transaction request = Transaction request' ->
  snd (db.NewCachedTx ledgerEntryReader) = snd (db.NewCachedTx ledgerEntryReader') ->
  db.GetLatestLedgerSequence readTx = db.GetLatestLedgerSequence readTx' ->
  db.GetLedger ledgerReader latestLedger = db.GetLedger ledgerReader' latestLedger ->
  (forall bucketListSize sourceAccount opBody footprint,
      GetPreflight getter readTx bucketListSize sourceAccount opBody footprint
      = GetPreflight getter' readTx' bucketListSize sourceAccount opBody footprint) ->
  NewSimulateTransactionHandler SafeUnmarshalBase64 OperationType_String
    ledgerEntryReader ledgerReader getter request
  = NewSimulateTransactionHandler SafeUnmarshalBase64 OperationType_String
      ledgerEntryReader' ledgerReader' getter' request'.
Proof.
  intros readTx readTx' latestLedger Hreq Herr Hseq Hmeta Hpre.
  subst readTx readTx' latestLedger.
  destruct (db.NewCachedTx ledgerEntryReader) as [readTx err] eqn:Htx.
  destruct (db.NewCachedTx ledgerEntryReader') as [readTx' err'] eqn:Htx'.
  cbn in Herr, Hseq, Hmeta, Hpre. subst err'.
  unfold_sim. rewrite Htx, Htx', <- Hreq, <- Hseq.
  destruct (db.GetLatestLedgerSequence readTx) as [latestLedger errSeq].
  cbn in Hmeta. rewrite <- Hmeta.
  repeat (try rewrite <- Hpre; break_innermost; cbn beta iota).
  all: reflexivity.
Qed.

(** ** The missing-resource-data check on decoded envelopes *)

(** C1. Two envelopes with a single footprint operation and without usable
    inline resource data: an [EnvelopeTypeTx] envelope whose extension is
    [v = 0], and a fee-bump envelope.  Both are envelopes the decoder
    produces.  On neither does the handler return the missing-resource-data
    error: on the first the test of the envelope is false and the footprint
    is read through the nil [SorobanData]; on the second the test itself
    reads through the nil [V1].  Both runs panic before any collaborator is
    called. *)
Theorem C1_missing_data_not_rejected
    (ledgerEntryReader : db.LedgerEntryReader) (ledgerReader : db.LedgerReader)
    (getter : PreflightGetter) :
  let bump :=
    Sample.envelopeTx
      [Sample.operation xdr.OperationTypeBumpFootprintExpiration] Sample.extV0 in
  let restore :=
    Sample.envelopeFeeBump
      [Sample.operation xdr.OperationTypeRestoreFootprint] Sample.extV1 in
  (Sample.unmarshal "bump-no-data" = Some bump
   /\ xdr.envelope_decoded bump = true
   /\ xdr.env_Type bump = xdr.EnvelopeTypeEnvelopeTypeTx
   /\ xdr.Operations bump
      = Some [Sample.operation xdr.OperationTypeBumpFootprintExpiration]
   /\ NewSimulateTransactionHandler Sample.unmarshal Sample.typeName
        ledgerEntryReader ledgerReader getter (Sample.request "bump-no-data")
      = ([], Panicked))
  /\ (Sample.unmarshal "restore-fee-bump" = Some restore
      /\ xdr.envelope_decoded restore = true
      /\ xdr.env_Type restore = xdr.EnvelopeTypeEnvelopeTypeTxFeeBump
      /\ xdr.Operations restore
         = Some [Sample.operation xdr.OperationTypeRestoreFootprint]
      /\ NewSimulateTransactionHandler Sample.unmarshal Sample.typeName
           ledgerEntryReader ledgerReader getter
           (Sample.request "restore-fee-bump")
         = ([], Panicked)).
Proof. cbv zeta. repeat split. Qed.

(** ** Concrete runs *)

Lemma C6_operation_count_first_witness :
  exists r,
    Sample.handler (1000, None) 2 (Sample.trace, None) "two-payments"
    = ([], Returned r)
    /\ Error r = "Transaction contains more than one operation"
    /\ Results r = []
    /\ r = errorResponse msgOperations.
Proof.
  apply (C6_operation_count_first Sample.unmarshal Sample.typeName
           (Sample.entryReader (1000, None)) (Sample.ledgers 2 4096)
           (Sample.getterOf (Sample.trace, None))
           (Sample.request "two-payments")
           (Sample.envelopeTx [Sample.operation xdr.OperationTypePayment;
                               Sample.operation xdr.OperationTypePayment]
              Sample.extV0)
           [Sample.operation xdr.OperationTypePayment;
            Sample.operation xdr.OperationTypePayment]).
  - reflexivity.
  - reflexivity.
  - simpl. lia.
Defined.

Lemma C8_input_error_before_snapshot_witness :
  (* a Payment operation is answered *)
  (snapshot_opened
     (fst (Sample.handler (1000, None) 2 (Sample.trace, None) "payment")) = false
   /\ exists r,
       snd (Sample.handler (1000, None) 2 (Sample.trace, None) "payment")
       = Returned r
       /\ Error r
          = "Transaction contains unsupported operation type: OperationTypePayment"
       /\ no_result r /\ Events r = [] /\ LatestLedger r = 0)
  (* a BumpFootprintExpiration without inline data is not *)
  /\ (snapshot_opened
        (fst (Sample.handler (1000, None) 2 (Sample.trace, None) "bump-no-data"))
      = false
      /\ snd (Sample.handler (1000, None) 2 (Sample.trace, None) "bump-no-data")
         = Panicked).
Proof.
  split.
  - apply (proj1
      (C8_input_error_before_snapshot Sample.unmarshal Sample.typeName
         (Sample.entryReader (1000, None)) (Sample.ledgers 2 4096)
         (Sample.getterOf (Sample.trace, None)) (Sample.request "payment")
         UnsupportedOperation _ _ _
         (input_unsupported Sample.unmarshal Sample.typeName
            (Sample.request "payment")
            (Sample.envelopeTx [Sample.operation xdr.OperationTypePayment]
               Sample.extV0)
            (Sample.operation xdr.OperationTypePayment)
            eq_refl eq_refl
            ltac:(simpl; intros [H | [H | H]]; discriminate H))
         eq_refl)).
    discriminate.
  - apply (proj2
      (C8_input_error_before_snapshot Sample.unmarshal Sample.typeName
         (Sample.entryReader (1000, None)) (Sample.ledgers 2 4096)
         (Sample.getterOf (Sample.trace, None)) (Sample.request "bump-no-data")
         MissingResourceData _ _ _
         (input_missing_data Sample.unmarshal Sample.typeName
            (Sample.request "bump-no-data")
            (Sample.envelopeTx
               [Sample.operation xdr.OperationTypeBumpFootprintExpiration]
               Sample.extV0)
            (Sample.operation xdr.OperationTypeBumpFootprintExpiration)
            eq_refl eq_refl (or_introl eq_refl)
            ltac:(intros [_ (v1 & d & [= <-] & Hd)]; discriminate Hd))
         eq_refl)).
    + reflexivity.
    + intros e He. unfold Sample.unmarshal in He. simpl in He.
      injection He as <-. reflexivity.
Defined.

Lemma C3_close_meta_version_witness :
  (* a close meta of version 1 *)
  ((exists r,
       snd (Sample.handler (1000, None) 1 (Sample.trace, None) "invoke")
       = Returned r
       /\ Error r = "latest ledger (1000) meta has unexpected verion (1)"
       /\ no_result r /\ Events r = [] /\ LatestLedger r = 0)
   /\ preflight_invoked
        (fst (Sample.handler (1000, None) 1 (Sample.trace, None) "invoke"))
      = false)
  (* a close meta of version 2 *)
  /\ getBucketListSize (R := SimulateTransactionResponse)
       (Sample.ledgers 2 4096) 1000
     = ([EvGetLedger 1000 (Sample.closeMeta 2 4096, true, None)],
        Next (4096, None)).
Proof.
  split.
  - apply (proj1
      (C3_close_meta_version Sample.unmarshal Sample.typeName
         (Sample.entryReader (1000, None)) (Sample.ledgers 1 4096)
         (Sample.getterOf (Sample.trace, None)) (Sample.request "invoke")
         _ _ 1000 (Sample.closeMeta 1 4096) eq_refl
         ltac:(simpl; tauto))).
    simpl. lia.
  - pose proof
      (C3_close_meta_version Sample.unmarshal Sample.typeName
         (Sample.entryReader (1000, None)) (Sample.ledgers 2 4096)
         (Sample.getterOf (Sample.trace, None)) (Sample.request "invoke")
         _ _ 1000 (Sample.closeMeta 2 4096) eq_refl) as H.
    destruct H as [_ H]; [simpl; tauto |].
    destruct (H eq_refl {| xdr.TotalByteSizeOfBucketList := 4096 |} eq_refl)
      as [Hsize _]; [simpl; lia |].
    exact Hsize.
Defined.

Lemma C5_footprint_by_operation_witness :
  (* an InvokeHostFunction envelope that declares a footprint inline *)
  (In (EvGetPreflight 4096 "GA7Q"
         (xdr.op_Body (Sample.operation xdr.OperationTypeInvokeHostFunction))
         xdr.LedgerFootprint_zero (Sample.trace, None))
      (fst (Sample.handler (1000, None) 2 (Sample.trace, None) "invoke-with-data"))
   /\ xdr.LedgerFootprint_zero = xdr.LedgerFootprint_zero)
  (* a BumpFootprintExpiration envelope *)
  /\ (In (EvGetPreflight 4096 "GA7Q"
            (xdr.op_Body (Sample.operation xdr.OperationTypeBumpFootprintExpiration))
            Sample.footprint (Sample.trace, None))
         (fst (Sample.handler (1000, None) 2 (Sample.trace, None) "bump"))
      /\ exists v1 sorobanData,
          xdr.env_V1 (Sample.envelopeTx
                        [Sample.operation xdr.OperationTypeBumpFootprintExpiration]
                        Sample.extV1) = Some v1
          /\ xdr.ext_SorobanData (xdr.tx_Ext (xdr.v1_Tx v1)) = Some sorobanData
          /\ Sample.footprint = xdr.Footprint (xdr.Resources sorobanData)).
Proof.
  split; (split; [simpl; tauto |]).
  - apply (proj1 (proj2
      (C5_footprint_by_operation Sample.unmarshal Sample.typeName
         (Sample.entryReader (1000, None)) (Sample.ledgers 2 4096)
         (Sample.getterOf (Sample.trace, None))
         (Sample.request "invoke-with-data") _ _
         (Sample.envelopeTx
            [Sample.operation xdr.OperationTypeInvokeHostFunction] Sample.extV1)
         (Sample.operation xdr.OperationTypeInvokeHostFunction)
         4096 "GA7Q"
         (xdr.op_Body (Sample.operation xdr.OperationTypeInvokeHostFunction))
         xdr.LedgerFootprint_zero (Sample.trace, None)
         eq_refl eq_refl eq_refl ltac:(simpl; tauto)))).
    reflexivity.
  - apply (proj2 (proj2
      (C5_footprint_by_operation Sample.unmarshal Sample.typeName
         (Sample.entryReader (1000, None)) (Sample.ledgers 2 4096)
         (Sample.getterOf (Sample.trace, None))
         (Sample.request "bump") _ _
         (Sample.envelopeTx
            [Sample.operation xdr.OperationTypeBumpFootprintExpiration] Sample.extV1)
         (Sample.operation xdr.OperationTypeBumpFootprintExpiration)
         4096 "GA7Q"
         (xdr.op_Body (Sample.operation xdr.OperationTypeBumpFootprintExpiration))
         Sample.footprint (Sample.trace, None)
         eq_refl eq_refl eq_refl ltac:(simpl; tauto)))).
    left. reflexivity.
Defined.

Lemma C7_success_cost_and_ledger_witness :
  exists r,
    snd (Sample.handler (1000, None) 2 (Sample.trace, None) "invoke") = Returned r
    /\ CPUInstructions (Cost r) = 1048576
    /\ MemoryBytes (Cost r) = 65536
    /\ LatestLedger r = 1000.
Proof.
  eexists. split; [reflexivity |].
  apply (C7_success_cost_and_ledger Sample.unmarshal Sample.typeName
           (Sample.entryReader (1000, None)) (Sample.ledgers 2 4096)
           (Sample.getterOf (Sample.trace, None)) (Sample.request "invoke")
           _ _ 4096 "GA7Q"
           (xdr.op_Body (Sample.operation xdr.OperationTypeInvokeHostFunction))
           xdr.LedgerFootprint_zero Sample.trace 1000 eq_refl).
  - simpl. tauto.
  - simpl. tauto.
  - lia.
Defined.

Lemma C10_success_single_result_witness :
  exists r,
    snd (Sample.handler (1000, None) 2 (Sample.trace, None) "bump") = Returned r
    /\ Results r = [ {| XDR := "AAAAAwAAAAU="; Auth := ["auth0"] |} ]
    /\ List.length (Results r) = 1%nat.
Proof.
  eexists. split; [reflexivity |].
  apply (C10_success_single_result Sample.unmarshal Sample.typeName
           (Sample.entryReader (1000, None)) (Sample.ledgers 2 4096)
           (Sample.getterOf (Sample.trace, None)) (Sample.request "bump")
           _ _ 4096 "GA7Q"
           (xdr.op_Body (Sample.operation xdr.OperationTypeBumpFootprintExpiration))
           Sample.footprint Sample.trace eq_refl).
  simpl. tauto.
Defined.

Lemma C2_preflight_failure_witness :
  exists r,
    snd (Sample.handler (1000, None) 2 (Sample.trace, Some "trap") "invoke")
    = Returned r
    /\ r = errorResponseAt "trap" 1000
    /\ Error r = "trap" /\ LatestLedger r = 1000 /\ Events r = [].
Proof.
  eexists. split; [reflexivity |].
  apply (C2_preflight_failure Sample.unmarshal Sample.typeName
           (Sample.entryReader (1000, None)) (Sample.ledgers 2 4096)
           (Sample.getterOf (Sample.trace, Some "trap")) (Sample.request "invoke")
           _ _ 4096 "GA7Q"
           (xdr.op_Body (Sample.operation xdr.OperationTypeInvokeHostFunction))
           xdr.LedgerFootprint_zero Sample.trace "trap" 1000 eq_refl).
  - simpl. tauto.
  - simpl. tauto.
  - lia.
Defined.

(** C2 as stated fails: the preflight returned its error together with two
    diagnostic events, and the response has none. *)
Lemma C2_events_not_carried :
  ~ (forall tr r bucketListSize sourceAccount opBody footprint result e,
        Sample.handler (1000, None) 2 (Sample.trace, Some "trap") "invoke"
        = (tr, Returned r) ->
        In (EvGetPreflight bucketListSize sourceAccount opBody footprint
              (result, Some e)) tr ->
        Error r = e /\ LatestLedger r = 1000
        /\ Events r = preflight.Events result).
Proof.
  intros H.
  specialize (H _ _ 4096 "GA7Q"
                (xdr.op_Body (Sample.operation xdr.OperationTypeInvokeHostFunction))
                xdr.LedgerFootprint_zero Sample.trace "trap" eq_refl).
  destruct H as (_ & _ & Hev); [simpl; tauto |].
  discriminate Hev.
Qed.

Lemma C4_error_or_result_witness :
  exists r,
    snd (Sample.handler (1000, None) 2 (Sample.trace, Some "trap") "invoke")
    = Returned r
    /\ error_xor_result r /\ (Error r = "" -> exists x, Results r = [x]).
Proof.
  eexists. split; [reflexivity |].
  apply (proj2
    (C4_error_or_result Sample.unmarshal Sample.typeName
       (Sample.entryReader (1000, None)) (Sample.ledgers 2 4096)
       (Sample.getterOf (Sample.trace, Some "trap")) (Sample.request "invoke")
       _ _ eq_refl)).
  intros ev Hin. simpl in Hin.
  repeat (destruct Hin as [<- | Hin]; [cbn; discriminate |]).
  destruct Hin.
Defined.

(** C4 as stated fails: the read transaction fails to give its latest
    ledger sequence with an error whose message is empty, and the response
    has neither an error message nor a result. *)
Lemma C4_neither_error_nor_result :
  ~ (forall tr r,
        Sample.handler (0, Some "") 2 (Sample.trace, None) "invoke"
        = (tr, Returned r) ->
        error_xor_result r).
Proof.
  intros H. specialize (H _ _ eq_refl).
  destruct H as [[Herr _] | [_ Hres]].
  - apply Herr. reflexivity.
  - apply Hres. repeat split.
Qed.

Lemma C9_deterministic_witness :
  NewSimulateTransactionHandler Sample.unmarshal Sample.typeName
    (Sample.entryReader (1000, None)) (Sample.ledgers 2 4096)
    (Sample.getterOf (Sample.trace, None)) (Sample.request "bump")
  = NewSimulateTransactionHandler Sample.unmarshal Sample.typeName
      Sample.otherEntryReader Sample.otherLedgers
      (Sample.getterOf (Sample.trace, None)) (Sample.request "bump").
Proof.
  apply C9_deterministic.
  - reflexivity.
  - reflexivity.
  - reflexivity.
  - reflexivity.
  - intros bls src body fp. reflexivity.
Defined.

(** ** Further properties of the handler *)

Section Further.

Variable SafeUnmarshalBase64 : string -> option xdr.TransactionEnvelope.
Variable OperationType_String : xdr.OperationType -> string.
Variable ledgerEntryReader : db.LedgerEntryReader.
Variable ledgerReader : db.LedgerReader.
Variable getter : PreflightGetter.

Local Abbreviation handler :=
  (NewSimulateTransactionHandler SafeUnmarshalBase64 OperationType_String
     ledgerEntryReader ledgerReader getter).

(** X1. A read transaction that was opened is released: [Done] is the last
    call of the run and is made once, whether the run returns or panics.
    A run that did not open one never calls [Done]. *)
Theorem X1_snapshot_released request tr out :
  handler request = (tr, out) ->
  (In (EvNewCachedTx None) tr ->
   exists calls, tr = (calls ++ [EvDone])%list /\ ~ In EvDone calls)
  /\ (~ In (EvNewCachedTx None) tr -> ~ In EvDone tr).
Proof.
  revert tr out. sim_paths; intros tr out [= <- <-]; cbn [app].
  all: split; [intros Hopen | intros Hclosed Hdone].
  all: try solve [in_trace].
  all: try solve [exfalso; apply Hclosed; simpl; tauto].
  all: match goal with
       | |- exists calls, ?t = _ /\ _ =>
           exists (removelast t); split;
           [reflexivity | cbn; intros Hin; in_trace]
       end.
Qed.

(** X2. When the read transaction cannot be created, the [error] of the
    response is the fixed message "Cannot create read transaction" and its
    other fields are unset: the error of the store is not reported,
    nothing else is called, and there is nothing to release. *)
Theorem X2_read_tx_failure request tr out e :
  handler request = (tr, out) ->
  In (EvNewCachedTx (Some e)) tr ->
  tr = [EvNewCachedTx (Some e)]
  /\ exists r,
      out = Returned r
      /\ Error r = "Cannot create read transaction"
      /\ no_result r /\ Events r = [] /\ LatestLedger r = 0.
Proof.
  revert tr out. sim_paths; intros tr out [= <- <-] Hin; in_trace.
  all: split; [reflexivity |].
  all: eexists; split; [reflexivity |]; repeat split.
Qed.

(** X3. When the read transaction cannot tell its latest ledger sequence,
    the [error] of the response is the message of that error and its other
    fields are unset; no ledger is read and the preflight is not run; the
    read transaction is released. *)
Theorem X3_latest_ledger_failure request tr out latestLedger e :
  handler request = (tr, out) ->
  In (EvGetLatestLedgerSequence (latestLedger, Some e)) tr ->
  tr = [EvNewCachedTx None; EvGetLatestLedgerSequence (latestLedger, Some e);
        EvDone]
  /\ exists r,
      out = Returned r
      /\ Error r = e
      /\ no_result r /\ Events r = [] /\ LatestLedger r = 0.
Proof.
  revert tr out. sim_paths; intros tr out [= <- <-] Hin; in_trace.
  all: split; [reflexivity |].
  all: eexists; split; [reflexivity |]; repeat split.
Qed.

(** X4. When the close meta of the latest ledger cannot be had, the
    preflight is not run and the response holds an [error] and nothing
    else: the message of the error of the ledger reader, whatever else the
    reader returned, or, for an absent close meta, "missing meta for latest
    ledger (n)". *)
Theorem X4_close_meta_unavailable request tr out latestLedger closeMeta ok err :
  handler request = (tr, out) ->
  In (EvGetLedger latestLedger (closeMeta, ok, err)) tr ->
  (forall e, err = Some e ->
             preflight_invoked tr = false
             /\ exists r,
                 out = Returned r
                 /\ Error r = e
                 /\ no_result r /\ Events r = [] /\ LatestLedger r = 0)
  /\ (err = None -> ok = false ->
      preflight_invoked tr = false
      /\ exists r,
          out = Returned r
          /\ Error r = "missing meta for latest ledger ("
                       ++ fmt_d latestLedger ++ ")"
          /\ no_result r /\ Events r = [] /\ LatestLedger r = 0).
Proof.
  revert tr out. sim_paths; intros tr out [= <- <-] Hin; in_trace; tests.
  all: split; [intros e' He | intros He Hok]; try congruence.
  all: try (injection He as <-).
  all: split; [reflexivity |].
  all: eexists; split; [reflexivity |]; repeat split.
Qed.

(** X5. [getBucketListSize] reads the close meta of the given ledger, once.
    It returns a size only for a close meta that is present and of version
    2, and that size is within 64 bits; with an error the size is 0.  It
    panics only on a version 2 close meta without its arm. *)
Theorem X5_bucket_list_size latestLedger tr c :
  getBucketListSize (R := SimulateTransactionResponse) ledgerReader latestLedger
  = (tr, c) ->
  tr = [EvGetLedger latestLedger (db.GetLedger ledgerReader latestLedger)]
  /\ (forall r, c <> Exit r)
  /\ (forall size e, c = Next (size, Some e) -> size = 0)
  /\ (forall size,
        c = Next (size, None) ->
        0 <= size < 2 ^ 64
        /\ exists closeMeta v2,
            db.GetLedger ledgerReader latestLedger = (closeMeta, true, None)
            /\ xdr.meta_V closeMeta = 2
            /\ xdr.meta_V2 closeMeta = Some v2
            /\ size = uint64 (xdr.TotalByteSizeOfBucketList v2))
  /\ (c = Panic <->
      exists closeMeta,
        db.GetLedger ledgerReader latestLedger = (closeMeta, true, None)
        /\ xdr.meta_V closeMeta = 2
        /\ xdr.meta_V2 closeMeta = None).
Proof.
  unfold getBucketListSize, bind, emit, ret, deref, panic.
  destruct (db.GetLedger ledgerReader latestLedger) as [[closeMeta ok] err].
  assert (Hcases :
    (exists e, err = Some e)
    \/ (err = None /\ ok = false)
    \/ (err = None /\ ok = true /\ xdr.meta_V closeMeta <> 2)
    \/ (err = None /\ ok = true /\ xdr.meta_V closeMeta = 2
        /\ xdr.meta_V2 closeMeta = None)
    \/ (err = None /\ ok = true /\ xdr.meta_V closeMeta = 2
        /\ exists v2, xdr.meta_V2 closeMeta = Some v2)).
  { destruct err as [e |]; [left; exists e; reflexivity |].
    destruct ok; [| right; left; split; reflexivity].
    destruct (Z.eq_dec (xdr.meta_V closeMeta) 2) as [Hv | Hv];
      [| do 2 right; left; repeat split; assumption].
    destruct (xdr.meta_V2 closeMeta) as [v2 |];
      [| do 3 right; left; repeat split; assumption].
    do 4 right. repeat split; try assumption. exists v2. reflexivity. }
  destruct Hcases as [[e ->] | [[-> ->] | [(-> & -> & Hv)
    | [(-> & -> & Hv & Hv2) | (-> & -> & Hv & v2 & Hv2)]]]]; cbn [negb].
  - (* the ledger reader failed *)
    intros [= <- <-]. repeat split; try discriminate.
    + now intros size e' [= <- _].
    + intros (m & [= ] & _).
  - (* no close meta for the ledger *)
    intros [= <- <-]. repeat split; try discriminate.
    + now intros size e' [= <- _].
    + intros (m & [= ] & _).
  - (* a close meta of another version *)
    apply Z.eqb_neq in Hv. rewrite Hv. cbn [negb]. apply Z.eqb_neq in Hv.
    intros [= <- <-]. repeat split; try discriminate.
    + now intros size e' [= <- _].
    + intros (m & [= <-] & Hv' & _). contradiction.
  - (* version 2 without its arm *)
    rewrite Hv, Hv2. cbn. intros [= <- <-]. repeat split; try discriminate.
    exists closeMeta. repeat split; assumption.
  - (* version 2 *)
    rewrite Hv, Hv2. cbn. intros [= <- <-].
    split; [reflexivity |]. split; [discriminate |].
    split; [discriminate |]. split.
    + intros size [= <-]. split.
      * unfold uint64. apply Z.mod_pos_bound. lia.
      * exists closeMeta, v2. repeat split; assumption.
    + split; [discriminate |]. intros (m & [= <-] & _ & Hnone). congruence.
Qed.

(** X6. The source account the preflight runs for is the one of the
    operation when the operation names one, else the one of the envelope
    (for a fee bump, of the inner transaction); a muxed account is reduced
    to its account id. *)
Theorem X6_source_account request tr out txEnvelope op bucketListSize
    sourceAccount opBody footprint res :
  handler request = (tr, out) ->
  SafeUnmarshalBase64 (Transaction request) = Some txEnvelope ->
  xdr.Operations txEnvelope = Some [op] ->
  In (EvGetPreflight bucketListSize sourceAccount opBody footprint res) tr ->
  resolvedSource txEnvelope op = Some sourceAccount.
Proof.
  intros Hrun Hdec Hops. revert tr out Hrun.
  unfold_sim. rewrite Hdec. cbn beta iota. rewrite Hops. cbn.
  unfold resolvedSource.
  repeat (break_innermost; cbn beta iota).
  all: intros tr out [= <- <-] Hin; in_trace; reflexivity.
Qed.

(** X7. The calls of a run follow one protocol.  A collaborator is called
    only for a request that passed validation.  Then the read transaction
    is opened; on it the latest ledger sequence is asked, the close meta of
    exactly that ledger is read, and the preflight is run only behind a
    close meta that was present; each call is made at most once, and
    [Done] closes the run. *)
Theorem X7_call_protocol request :
  Protocol (fst (handler request))
  /\ (collaborator_called (fst (handler request)) = true ->
      validated SafeUnmarshalBase64 request).
Proof.
  unfold validated. sim_paths; cbn [fst]; (split; [| intros Hcall]).
  (* the shape of the trace *)
  all: try solve [cbn; constructor].
  all: try solve [cbn;
                  match goal with
                  | |- Protocol (EvNewCachedTx None :: ?t) =>
                      apply (protocol_opened (removelast t)); cbn; tests; subst;
                      constructor
                  end].
  (* runs without a call *)
  all: try discriminate Hcall.
  (* runs with calls: validation had passed *)
  all: tests;
    match goal with
    | H : nth_error ?l 0 = Some ?o, Hl : List.length ?l = 1%nat,
      Hd : SafeUnmarshalBase64 _ = Some ?e |- _ =>
        rewrite (single_operation l o Hl H) in *; exists e, o
    end.
  all: split; [reflexivity |]; split; [assumption |].
  all: first
    [ split; [left; assumption |];
      intros [Hty | Hty];
      match goal with
      | H : _ = xdr.OperationTypeInvokeHostFunction |- _ =>
          rewrite Hty in H; discriminate H
      end
    | split; [right; assumption | intros _; eauto] ].
Qed.

(** X8. The response of a successful simulation has no error message and
    carries the events, the transaction data and the minimum resource fee
    of the preflight result as they are. *)
Theorem X8_success_copies_preflight request tr r bucketListSize sourceAccount
    opBody footprint result :
  handler request = (tr, Returned r) ->
  In (EvGetPreflight bucketListSize sourceAccount opBody footprint
        (result, None)) tr ->
  Error r = ""
  /\ Events r = preflight.Events result
  /\ TransactionData r = preflight.TransactionData result
  /\ MinResourceFee r = preflight.MinFee result.
Proof.
  intros Hrun Hpre.
  destruct (handler_preflight _ _ _ _ _ _ _ _ _ _ _ _ _ _ Hrun Hpre)
    as (readTx & l & _ & _ & _ & _ & [= ->]).
  repeat split.
Qed.

(** X12. A response of a run that did not reach the preflight holds an
    error message and nothing else: its [latestLedger] is 0 also when the
    latest ledger sequence had been read. *)
Theorem X12_error_only_before_preflight request tr r :
  handler request = (tr, Returned r) ->
  preflight_invoked tr = false ->
  r = errorResponse (Error r) /\ LatestLedger r = 0.
Proof.
  revert tr r. sim_paths; intros tr r [= <- <-] Hpre;
    solve [split; reflexivity | discriminate Hpre].
Qed.

(** *** When the handler panics *)

(** X9. On envelopes as the decoder produces them and close metas as the
    ledger reader decodes them, the handler panics in exactly one
    situation: the single operation is BumpFootprintExpiration or
    RestoreFootprint and the envelope is not an [EnvelopeTypeTx] envelope
    holding [SorobanData].  On every other request it returns a
    response. *)
Theorem X9_panic_exactly_without_inline_data request tr out :
  (forall e, SafeUnmarshalBase64 (Transaction request) = Some e ->
             xdr.envelope_decoded e = true) ->
  (forall seq, closeMeta_decoded (fst (fst (db.GetLedger ledgerReader seq)))) ->
  handler request = (tr, out) ->
  (out = Panicked <->
   exists txEnvelope op,
     SafeUnmarshalBase64 (Transaction request) = Some txEnvelope
     /\ xdr.Operations txEnvelope = Some [op]
     /\ is_footprint_op (xdr.body_Type (xdr.op_Body op))
     /\ ~ has_inline_data txEnvelope).
Proof.
  intros Hdecoder Hmeta. revert tr out.
  destruct (SafeUnmarshalBase64 (Transaction request)) as [env |] eqn:Hdec.
  2: { unfold_sim. rewrite Hdec. cbn. intros tr out [= <- <-].
       split; [discriminate | intros (e & op & He & _); discriminate He]. }
  specialize (Hdecoder env eq_refl).
  destruct (Operations_of_decoded env Hdecoder) as [ops Hops].
  destruct (SourceAccount_of_Operations env ops Hops) as [a Ha].
  unfold_sim. rewrite Hdec. cbn beta iota. rewrite Hops. cbn beta iota.
  rewrite Ha.
  repeat (break_innermost; cbn beta iota).
  all: intros tr out [= <- <-]; tests.
  all: try match goal with
         | H : nth_error ?l 0 = None, Hl : List.length ?l = 1%nat |- _ =>
             exfalso; exact (single_operation_exists l Hl H)
         end.
  all: try match goal with
         | H : nth_error ?l 0 = Some ?o, Hl : List.length ?l = 1%nat |- _ =>
             pose proof (single_operation l o Hl H) as Hsingle;
             rewrite Hsingle in *
         end.
  all: try match goal with
         | H : db.GetLedger ledgerReader ?z = (?m, _, _), Hv : xdr.meta_V ?m = 2,
           Hn : xdr.meta_V2 ?m = None |- _ =>
             exfalso; specialize (Hmeta z); rewrite H in Hmeta;
             exact (Hmeta Hv Hn)
         end.
  all: split; [intros Hout; try discriminate Hout | intros (env' & op' & Henv & Hop & Hty & Hno);
      injection Henv as Henv; subst env'].
  (* a response was returned: the envelope holds the data, or the operation
     is no footprint operation *)
  all: try solve [rewrite Hops in Hop; injection Hop as Heq;
                  first [discriminate Heq
                        | apply (f_equal (@List.length _)) in Heq;
                          simpl in Heq; congruence]].
  all: try (rewrite Hops in Hop; injection Hop as <-).
  all: try solve [exfalso;
                  match goal with
                  | H : ?t = xdr.OperationTypeInvokeHostFunction |- _ =>
                      destruct Hty as [Hty | Hty]; rewrite Hty in H;
                      discriminate H
                  | H : ~ is_footprint_op _ |- _ => exact (H Hty)
                  end].
  all: try solve [exfalso; apply Hno; split;
                  [eapply V1_of_decoded; eassumption | eauto]].
  all: try solve [exfalso;
                  match goal with
                  | Hne : xdr.env_Type ?e <> _, Hv : xdr.env_V1 ?e = Some _ |- _ =>
                      exact (Hne (V1_of_decoded e _ Hdecoder Hv))
                  end].
  all: try reflexivity.
  all: try solve [destruct Hty as [Hty | Hty]; contradiction].
  (* a panic: the data is missing *)
  all: exists env; eexists; split; [reflexivity |]; split; [eassumption |];
    split; [assumption |].
  all: intros [Hty (v1 & d & Hv1 & Hd)]; congruence.
Qed.

(** *** Complete runs *)

(** X10. An InvokeHostFunction envelope of any of the three envelope types
    is simulated through: the read transaction is opened, the close meta of
    its latest ledger gives the bucket list size, and the preflight is run
    for the resolved source account on the empty footprint.  The response
    is the success response of the preflight result, or its error message
    together with the ledger sequence. *)
Theorem X10_invoke_simulated request txEnvelope op sourceAccount readTx
    latestLedger closeMeta v2 result err :
  SafeUnmarshalBase64 (Transaction request) = Some txEnvelope ->
  xdr.Operations txEnvelope = Some [op] ->
  xdr.body_Type (xdr.op_Body op) = xdr.OperationTypeInvokeHostFunction ->
  resolvedSource txEnvelope op = Some sourceAccount ->
  db.NewCachedTx ledgerEntryReader = (readTx, None) ->
  db.GetLatestLedgerSequence readTx = (latestLedger, None) ->
  db.GetLedger ledgerReader latestLedger = (closeMeta, true, None) ->
  xdr.meta_V closeMeta = 2 ->
  xdr.meta_V2 closeMeta = Some v2 ->
  GetPreflight getter readTx (uint64 (xdr.TotalByteSizeOfBucketList v2))
    sourceAccount (xdr.op_Body op) xdr.LedgerFootprint_zero = (result, err) ->
  handler request
  = ([EvNewCachedTx None;
      EvGetLatestLedgerSequence (latestLedger, None);
      EvGetLedger latestLedger (closeMeta, true, None);
      EvGetPreflight (uint64 (xdr.TotalByteSizeOfBucketList v2)) sourceAccount
        (xdr.op_Body op) xdr.LedgerFootprint_zero (result, err);
      EvDone],
     Returned match err with
              | Some e => errorResponseAt e (int64 latestLedger)
              | None => successResponse result latestLedger
              end).
Proof.
  intros Hdec Hops Hty Hsrc Htx Hseq Hget Hv Hv2 Hpre.
  unfold NewSimulateTransactionHandler, simulate.
  rewrite Hdec. cbn. rewrite Hops. cbn.
  unfold resolvedSource in Hsrc.
  assert (Hstage :
    match xdr.op_SourceAccount op with
    | Some opSourceAccount =>
        ret (R := SimulateTransactionResponse) (xdr.ToAccountId opSourceAccount)
    | None => bind (deref (xdr.SourceAccount txEnvelope))
                (fun a => ret (xdr.ToAccountId a))
    end = ret sourceAccount).
  { destruct (xdr.op_SourceAccount op).
    - injection Hsrc as Hsrc. now rewrite Hsrc.
    - destruct (xdr.SourceAccount txEnvelope); [| discriminate Hsrc].
      cbn in Hsrc. injection Hsrc as Hsrc. cbn. now rewrite Hsrc. }
  rewrite Hstage. cbn. rewrite Hty. cbn. rewrite Htx. cbn.
  rewrite Hseq. cbn.
  rewrite Hget. cbn. rewrite Hv. cbn. rewrite Hv2. cbn.
  rewrite Hpre. destruct err; reflexivity.
Qed.

(** X11. A BumpFootprintExpiration or RestoreFootprint operation in an
    [EnvelopeTypeTx] envelope that holds [SorobanData] is simulated
    through, on the footprint of that data. *)
Theorem X11_footprint_operation_simulated request txEnvelope op v1 sorobanData
    sourceAccount readTx latestLedger closeMeta v2 result err :
  SafeUnmarshalBase64 (Transaction request) = Some txEnvelope ->
  xdr.Operations txEnvelope = Some [op] ->
  is_footprint_op (xdr.body_Type (xdr.op_Body op)) ->
  xdr.env_Type txEnvelope = xdr.EnvelopeTypeEnvelopeTypeTx ->
  xdr.env_V1 txEnvelope = Some v1 ->
  xdr.ext_SorobanData (xdr.tx_Ext (xdr.v1_Tx v1)) = Some sorobanData ->
  resolvedSource txEnvelope op = Some sourceAccount ->
  db.NewCachedTx ledgerEntryReader = (readTx, None) ->
  db.GetLatestLedgerSequence readTx = (latestLedger, None) ->
  db.GetLedger ledgerReader latestLedger = (closeMeta, true, None) ->
  xdr.meta_V closeMeta = 2 ->
  xdr.meta_V2 closeMeta = Some v2 ->
  GetPreflight getter readTx (uint64 (xdr.TotalByteSizeOfBucketList v2))
    sourceAccount (xdr.op_Body op)
    (xdr.Footprint (xdr.Resources sorobanData)) = (result, err) ->
  handler request
  = ([EvNewCachedTx None;
      EvGetLatestLedgerSequence (latestLedger, None);
      EvGetLedger latestLedger (closeMeta, true, None);
      EvGetPreflight (uint64 (xdr.TotalByteSizeOfBucketList v2)) sourceAccount
        (xdr.op_Body op) (xdr.Footprint (xdr.Resources sorobanData))
        (result, err);
      EvDone],
     Returned match err with
              | Some e => errorResponseAt e (int64 latestLedger)
              | None => successResponse result latestLedger
              end).
Proof.
  intros Hdec Hops Hty Henv Hv1 Hdata Hsrc Htx Hseq Hget Hv Hv2 Hpre.
  unfold NewSimulateTransactionHandler, simulate.
  rewrite Hdec. cbn. rewrite Hops. cbn.
  unfold resolvedSource in Hsrc.
  assert (Hstage :
    match xdr.op_SourceAccount op with
    | Some opSourceAccount =>
        ret (R := SimulateTransactionResponse) (xdr.ToAccountId opSourceAccount)
    | None => bind (deref (xdr.SourceAccount txEnvelope))
                (fun a => ret (xdr.ToAccountId a))
    end = ret sourceAccount).
  { destruct (xdr.op_SourceAccount op).
    - injection Hsrc as Hsrc. now rewrite Hsrc.
    - destruct (xdr.SourceAccount txEnvelope); [| discriminate Hsrc].
      cbn in Hsrc. injection Hsrc as Hsrc. cbn. now rewrite Hsrc. }
  rewrite Hstage. cbn.
  assert (Hsw :
    (xdr.body_Type (xdr.op_Body op) =? xdr.OperationTypeInvokeHostFunction) = false
    /\ ((xdr.body_Type (xdr.op_Body op) =? xdr.OperationTypeBumpFootprintExpiration)
        || (xdr.body_Type (xdr.op_Body op) =? xdr.OperationTypeRestoreFootprint))%bool
       = true).
  { destruct Hty as [-> | ->]; split; reflexivity. }
  destruct Hsw as [Hinvoke Hfootprint].
  rewrite Hinvoke, Hfootprint, Henv. cbn. rewrite Hv1. cbn.
  rewrite Hdata. cbn. rewrite Htx. cbn. rewrite Hseq. cbn.
  rewrite Hget. cbn. rewrite Hv. cbn. rewrite Hv2. cbn.
  rewrite Hpre. destruct err; reflexivity.
Qed.

(** *** What a preflight call and a result imply *)

(** X13. The preflight is run only behind a close meta of version 2 for the
    ledger the read transaction reported, and the bucket list size it
    receives is the [TotalByteSizeOfBucketList] of that close meta, reduced
    to 64 bits. *)
Theorem X13_preflight_behind_version_2 request tr out bucketListSize
    sourceAccount opBody footprint res :
  handler request = (tr, out) ->
  In (EvGetPreflight bucketListSize sourceAccount opBody footprint res) tr ->
  exists latestLedger closeMeta v2,
    In (EvGetLatestLedgerSequence (latestLedger, None)) tr
    /\ In (EvGetLedger latestLedger (closeMeta, true, None)) tr
    /\ db.GetLedger ledgerReader latestLedger = (closeMeta, true, None)
    /\ xdr.meta_V closeMeta = 2
    /\ xdr.meta_V2 closeMeta = Some v2
    /\ bucketListSize = uint64 (xdr.TotalByteSizeOfBucketList v2)
    /\ 0 <= bucketListSize < 2 ^ 64.
Proof.
  revert tr out. sim_paths; intros tr out [= <- <-] Hin; in_trace; tests.
  all: subst;
    match goal with
    | H : db.GetLedger _ ?z = (?m, _, _), H2 : xdr.meta_V2 ?m = Some ?v |- _ =>
        exists z, m, v
    end.
  all: split; [simpl; tauto |]; split; [simpl; tauto |].
  all: split; [assumption |]; split; [assumption |]; split; [assumption |].
  all: split; [reflexivity |].
  all: unfold uint64; apply Z.mod_pos_bound; lia.
Qed.

(** X14. Results and events appear only in the response of a successful
    simulation: a response with an element in [results] or in [events] is
    the success response of a preflight that returned no error. *)
Theorem X14_results_only_on_success request tr r :
  handler request = (tr, Returned r) ->
  Results r <> [] \/ Events r <> [] ->
  exists bucketListSize sourceAccount opBody footprint result latestLedger,
    In (EvGetPreflight bucketListSize sourceAccount opBody footprint
          (result, None)) tr
    /\ In (EvGetLatestLedgerSequence (latestLedger, None)) tr
    /\ r = successResponse result latestLedger.
Proof.
  revert tr r. sim_paths; intros tr r [= <- <-] [Hres | Hev];
    try (exfalso; apply Hres; reflexivity);
    try (exfalso; apply Hev; reflexivity).
  all: do 6 eexists; split; [simpl; tauto |]; split; [simpl; tauto |];
    reflexivity.
Qed.

End Further.

(** ** Concrete runs for the further properties *)

Lemma X1_snapshot_released_witness :
  (* the run on a close meta of version 1 fails, and releases *)
  exists calls,
    fst (Sample.handler (1000, None) 1 (Sample.trace, None) "invoke")
    = (calls ++ [EvDone])%list
    /\ ~ In EvDone calls.
Proof.
  apply (proj1
    (X1_snapshot_released Sample.unmarshal Sample.typeName
       (Sample.entryReader (1000, None)) (Sample.ledgers 1 4096)
       (Sample.getterOf (Sample.trace, None)) (Sample.request "invoke")
       _ _ eq_refl)).
  simpl. tauto.
Defined.

Lemma X2_read_tx_failure_witness :
  let run :=
    NewSimulateTransactionHandler Sample.unmarshal Sample.typeName
      {| db.NewCachedTx := (Sample.readTx (0, None), Some "database is locked") |}
      (Sample.ledgers 2 4096) (Sample.getterOf (Sample.trace, None))
      (Sample.request "invoke") in
  fst run = [EvNewCachedTx (Some "database is locked")]
  /\ exists r,
      snd run = Returned r
      /\ Error r = "Cannot create read transaction"
      /\ no_result r /\ Events r = [] /\ LatestLedger r = 0.
Proof.
  apply (X2_read_tx_failure Sample.unmarshal Sample.typeName
    {| db.NewCachedTx := (Sample.readTx (0, None), Some "database is locked") |}
    (Sample.ledgers 2 4096) (Sample.getterOf (Sample.trace, None))
    (Sample.request "invoke") _ _ "database is locked" eq_refl).
  simpl. tauto.
Defined.

Lemma X3_latest_ledger_failure_witness :
  let run :=
    Sample.handler (0, Some "no ledgers yet") 2 (Sample.trace, None) "bump" in
  fst run = [EvNewCachedTx None;
             EvGetLatestLedgerSequence (0, Some "no ledgers yet"); EvDone]
  /\ exists r,
      snd run = Returned r
      /\ Error r = "no ledgers yet"
      /\ no_result r /\ Events r = [] /\ LatestLedger r = 0.
Proof.
  apply (X3_latest_ledger_failure Sample.unmarshal Sample.typeName
    (Sample.entryReader (0, Some "no ledgers yet")) (Sample.ledgers 2 4096)
    (Sample.getterOf (Sample.trace, None)) (Sample.request "bump")
    _ _ 0 "no ledgers yet" eq_refl).
  simpl. tauto.
Defined.

Lemma X4_close_meta_unavailable_witness :
  (* ledger 7 is not in the store *)
  (preflight_invoked
     (fst (NewSimulateTransactionHandler Sample.unmarshal Sample.typeName
             (Sample.entryReader (7, None)) Sample.otherLedgers
             (Sample.getterOf (Sample.trace, None)) (Sample.request "invoke")))
   = false
   /\ exists r,
       snd (NewSimulateTransactionHandler Sample.unmarshal Sample.typeName
              (Sample.entryReader (7, None)) Sample.otherLedgers
              (Sample.getterOf (Sample.trace, None)) (Sample.request "invoke"))
       = Returned r
       /\ Error r = "missing meta for latest ledger (7)"
       /\ no_result r /\ Events r = [] /\ LatestLedger r = 0)
  (* the ledger reader fails, and returns a close meta all the same *)
  /\ (preflight_invoked
        (fst (NewSimulateTransactionHandler Sample.unmarshal Sample.typeName
                (Sample.entryReader (7, None))
                {| db.GetLedger := fun _ =>
                     (Sample.closeMeta 2 4096, true, Some "connection reset") |}
                (Sample.getterOf (Sample.trace, None)) (Sample.request "invoke")))
      = false
      /\ exists r,
          snd (NewSimulateTransactionHandler Sample.unmarshal Sample.typeName
                 (Sample.entryReader (7, None))
                 {| db.GetLedger := fun _ =>
                      (Sample.closeMeta 2 4096, true, Some "connection reset") |}
                 (Sample.getterOf (Sample.trace, None)) (Sample.request "invoke"))
          = Returned r
          /\ Error r = "connection reset"
          /\ no_result r /\ Events r = [] /\ LatestLedger r = 0).
Proof.
  split.
  - apply (proj2
      (X4_close_meta_unavailable Sample.unmarshal Sample.typeName
         (Sample.entryReader (7, None)) Sample.otherLedgers
         (Sample.getterOf (Sample.trace, None)) (Sample.request "invoke")
         _ _ 7 (Sample.closeMeta 0 0) false None eq_refl
         ltac:(simpl; tauto))); reflexivity.
  - apply (proj1
      (X4_close_meta_unavailable Sample.unmarshal Sample.typeName
         (Sample.entryReader (7, None))
         {| db.GetLedger := fun _ =>
              (Sample.closeMeta 2 4096, true, Some "connection reset") |}
         (Sample.getterOf (Sample.trace, None)) (Sample.request "invoke")
         _ _ 7 (Sample.closeMeta 2 4096) true (Some "connection reset") eq_refl
         ltac:(simpl; tauto))); reflexivity.
Defined.

Lemma X5_bucket_list_size_witness :
  (* a size beyond 64 bits is reduced *)
  0 <= 5 < 2 ^ 64
  /\ exists closeMeta v2,
      db.GetLedger (Sample.ledgers 2 (2 ^ 64 + 5)) 1000 = (closeMeta, true, None)
      /\ xdr.meta_V closeMeta = 2
      /\ xdr.meta_V2 closeMeta = Some v2
      /\ 5 = uint64 (xdr.TotalByteSizeOfBucketList v2).
Proof.
  apply (proj1 (proj2 (proj2 (proj2
           (X5_bucket_list_size (Sample.ledgers 2 (2 ^ 64 + 5)) 1000 _ _
              eq_refl))))).
  reflexivity.
Defined.

Lemma X6_source_account_witness :
  (* the fee source of a fee bump is not the source account *)
  resolvedSource
    (Sample.envelopeFeeBump
       [Sample.operation xdr.OperationTypeInvokeHostFunction] Sample.extV0)
    (Sample.operation xdr.OperationTypeInvokeHostFunction)
  = Some "GA7Q".
Proof.
  apply (X6_source_account
           (fun _ => Some (Sample.envelopeFeeBump
                             [Sample.operation xdr.OperationTypeInvokeHostFunction]
                             Sample.extV0))
           Sample.typeName
           (Sample.entryReader (1000, None)) (Sample.ledgers 2 4096)
           (Sample.getterOf (Sample.trace, None)) (Sample.request "fee-bump")
           _ _ _ _ 4096 "GA7Q"
           (xdr.op_Body (Sample.operation xdr.OperationTypeInvokeHostFunction))
           xdr.LedgerFootprint_zero (Sample.trace, None) eq_refl eq_refl eq_refl).
  simpl. tauto.
Defined.

Lemma X7_call_protocol_witness :
  (* the failing run on a close meta of version 1 *)
  Protocol (fst (Sample.handler (1000, None) 1 (Sample.trace, None) "bump"))
  /\ validated Sample.unmarshal (Sample.request "bump").
Proof.
  destruct (X7_call_protocol Sample.unmarshal Sample.typeName
              (Sample.entryReader (1000, None)) (Sample.ledgers 1 4096)
              (Sample.getterOf (Sample.trace, None)) (Sample.request "bump"))
    as [Hprotocol Hvalidated].
  split; [exact Hprotocol |]. apply Hvalidated. reflexivity.
Defined.

Lemma X8_success_copies_preflight_witness :
  exists r,
    snd (Sample.handler (1000, None) 2 (Sample.trace, None) "invoke") = Returned r
    /\ Error r = ""
    /\ Events r = ["ev0"; "ev1"]
    /\ TransactionData r = "AAAAdata"
    /\ MinResourceFee r = 1234.
Proof.
  eexists. split; [reflexivity |].
  apply (X8_success_copies_preflight Sample.unmarshal Sample.typeName
           (Sample.entryReader (1000, None)) (Sample.ledgers 2 4096)
           (Sample.getterOf (Sample.trace, None)) (Sample.request "invoke")
           _ _ 4096 "GA7Q"
           (xdr.op_Body (Sample.operation xdr.OperationTypeInvokeHostFunction))
           xdr.LedgerFootprint_zero Sample.trace eq_refl).
  simpl. tauto.
Defined.

Lemma Sample_unmarshal_decoded (s : string) e :
  Sample.unmarshal s = Some e -> xdr.envelope_decoded e = true.
Proof.
  unfold Sample.unmarshal.
  repeat match goal with
         | |- context [String.eqb s ?k] => destruct (String.eqb s k)
         end; intros [= <-]; reflexivity.
Qed.

Lemma X9_panic_exactly_without_inline_data_witness :
  (* a bump without data panics, an invocation without data does not *)
  (exists txEnvelope op,
      Sample.unmarshal "bump-no-data" = Some txEnvelope
      /\ xdr.Operations txEnvelope = Some [op]
      /\ is_footprint_op (xdr.body_Type (xdr.op_Body op))
      /\ ~ has_inline_data txEnvelope)
  /\ ~ (exists txEnvelope op,
           Sample.unmarshal "invoke" = Some txEnvelope
           /\ xdr.Operations txEnvelope = Some [op]
           /\ is_footprint_op (xdr.body_Type (xdr.op_Body op))
           /\ ~ has_inline_data txEnvelope).
Proof.
  assert (Hmeta : forall seq,
             closeMeta_decoded
               (fst (fst (db.GetLedger (Sample.ledgers 2 4096) seq)))).
  { intros seq. cbn. intros _ H. discriminate H. }
  split.
  - apply (proj1
      (X9_panic_exactly_without_inline_data Sample.unmarshal Sample.typeName
         (Sample.entryReader (1000, None)) (Sample.ledgers 2 4096)
         (Sample.getterOf (Sample.trace, None)) (Sample.request "bump-no-data")
         _ _ (Sample_unmarshal_decoded _) Hmeta eq_refl)).
    reflexivity.
  - intros H.
    apply (proj2
      (X9_panic_exactly_without_inline_data Sample.unmarshal Sample.typeName
         (Sample.entryReader (1000, None)) (Sample.ledgers 2 4096)
         (Sample.getterOf (Sample.trace, None)) (Sample.request "invoke")
         _ _ (Sample_unmarshal_decoded _) Hmeta eq_refl)) in H.
    discriminate H.
Defined.

Lemma X10_invoke_simulated_witness :
  (* an InvokeHostFunction operation in a fee-bump envelope *)
  NewSimulateTransactionHandler
    (fun _ => Some (Sample.envelopeFeeBump
                      [Sample.operation xdr.OperationTypeInvokeHostFunction]
                      Sample.extV0))
    Sample.typeName (Sample.entryReader (1000, None)) (Sample.ledgers 2 4096)
    (Sample.getterOf (Sample.trace, None)) (Sample.request "fee-bump")
  = ([EvNewCachedTx None;
      EvGetLatestLedgerSequence (1000, None);
      EvGetLedger 1000 (Sample.closeMeta 2 4096, true, None);
      EvGetPreflight 4096 "GA7Q"
        (xdr.op_Body (Sample.operation xdr.OperationTypeInvokeHostFunction))
        xdr.LedgerFootprint_zero (Sample.trace, None);
      EvDone],
     Returned (successResponse Sample.trace 1000)).
Proof.
  apply (X10_invoke_simulated
           (fun _ => Some (Sample.envelopeFeeBump
                             [Sample.operation xdr.OperationTypeInvokeHostFunction]
                             Sample.extV0))
           Sample.typeName (Sample.entryReader (1000, None))
           (Sample.ledgers 2 4096) (Sample.getterOf (Sample.trace, None))
           (Sample.request "fee-bump")
           (Sample.envelopeFeeBump
              [Sample.operation xdr.OperationTypeInvokeHostFunction] Sample.extV0)
           (Sample.operation xdr.OperationTypeInvokeHostFunction)
           "GA7Q" (Sample.readTx (1000, None)) 1000 (Sample.closeMeta 2 4096)
           {| xdr.TotalByteSizeOfBucketList := 4096 |} Sample.trace None);
    reflexivity.
Defined.

Lemma X11_footprint_operation_simulated_witness :
  Sample.handler (1000, None) 2 (Sample.trace, Some "entry expired") "bump"
  = ([EvNewCachedTx None;
      EvGetLatestLedgerSequence (1000, None);
      EvGetLedger 1000 (Sample.closeMeta 2 4096, true, None);
      EvGetPreflight 4096 "GA7Q"
        (xdr.op_Body (Sample.operation xdr.OperationTypeBumpFootprintExpiration))
        Sample.footprint (Sample.trace, Some "entry expired");
      EvDone],
     Returned (errorResponseAt "entry expired" 1000)).
Proof.
  apply (X11_footprint_operation_simulated Sample.unmarshal Sample.typeName
           (Sample.entryReader (1000, None)) (Sample.ledgers 2 4096)
           (Sample.getterOf (Sample.trace, Some "entry expired"))
           (Sample.request "bump")
           (Sample.envelopeTx
              [Sample.operation xdr.OperationTypeBumpFootprintExpiration]
              Sample.extV1)
           (Sample.operation xdr.OperationTypeBumpFootprintExpiration)
           (Sample.v1 [Sample.operation xdr.OperationTypeBumpFootprintExpiration]
              Sample.extV1)
           Sample.sorobanData
           "GA7Q" (Sample.readTx (1000, None)) 1000 (Sample.closeMeta 2 4096)
           {| xdr.TotalByteSizeOfBucketList := 4096 |} Sample.trace
           (Some "entry expired"));
    try reflexivity.
  left. reflexivity.
Defined.

Lemma X12_error_only_before_preflight_witness :
  exists r,
    snd (Sample.handler (1000, None) 1 (Sample.trace, None) "invoke") = Returned r
    /\ r = errorResponse (Error r) /\ LatestLedger r = 0.
Proof.
  eexists. split; [reflexivity |].
  apply (X12_error_only_before_preflight Sample.unmarshal Sample.typeName
           (Sample.entryReader (1000, None)) (Sample.ledgers 1 4096)
           (Sample.getterOf (Sample.trace, None)) (Sample.request "invoke")
           _ _ eq_refl).
  reflexivity.
Defined.

Lemma X13_preflight_behind_version_2_witness :
  exists latestLedger closeMeta v2,
    In (EvGetLatestLedgerSequence (latestLedger, None))
      (fst (Sample.handler (1000, None) 2 (Sample.trace, None) "invoke"))
    /\ In (EvGetLedger latestLedger (closeMeta, true, None))
         (fst (Sample.handler (1000, None) 2 (Sample.trace, None) "invoke"))
    /\ db.GetLedger (Sample.ledgers 2 4096) latestLedger = (closeMeta, true, None)
    /\ xdr.meta_V closeMeta = 2
    /\ xdr.meta_V2 closeMeta = Some v2
    /\ 4096 = uint64 (xdr.TotalByteSizeOfBucketList v2)
    /\ 0 <= 4096 < 2 ^ 64.
Proof.
  apply (X13_preflight_behind_version_2 Sample.unmarshal Sample.typeName
           (Sample.entryReader (1000, None)) (Sample.ledgers 2 4096)
           (Sample.getterOf (Sample.trace, None)) (Sample.request "invoke")
           _ _ 4096 "GA7Q"
           (xdr.op_Body (Sample.operation xdr.OperationTypeInvokeHostFunction))
           xdr.LedgerFootprint_zero (Sample.trace, None) eq_refl).
  simpl. tauto.
Defined.

Lemma X14_results_only_on_success_witness :
  exists bucketListSize sourceAccount opBody footprint result latestLedger,
    In (EvGetPreflight bucketListSize sourceAccount opBody footprint
          (result, None))
      (fst (Sample.handler (1000, None) 2 (Sample.trace, None) "bump"))
    /\ In (EvGetLatestLedgerSequence (latestLedger, None))
         (fst (Sample.handler (1000, None) 2 (Sample.trace, None) "bump"))
    /\ successResponse Sample.trace 1000 = successResponse result latestLedger.
Proof.
  apply (X14_results_only_on_success Sample.unmarshal Sample.typeName
           (Sample.entryReader (1000, None)) (Sample.ledgers 2 4096)
           (Sample.getterOf (Sample.trace, None)) (Sample.request "bump")
           _ (successResponse Sample.trace 1000) eq_refl).
  left. discriminate.
Defined.
